(** * LogosClient: the voice SDK client of logos-sdk-js

    A shallow embedding of [class LogosClient] (client source) and of the
    declarations of [types.ts].  The client is a mutable object driven by
    callbacks; it is embedded as a record of its instance fields, and each
    method or callback as a computation in a small state-and-trace monad:
    it reads and updates the fields and appends to a trace the calls it
    makes on its collaborators (socket, timers, recorder, console, the
    subscribers of its events).

    Conventions.
    - A JS [number] that holds a count, a threshold or a time in milliseconds
      is a [Z]; every number the client computes with is a sum or difference
      of such integers.
    - A timer handle is a [positive]: browsers hand out integers greater
      than zero, so the truthiness test [if (this.silenceTimeout)] is the
      test that the field is not [null].
    - What a browser call returns (the clock, the outcome of [getUserMedia],
      a fresh timer handle, the analyser's frequency bytes) is an argument
      of the method that makes the call.
    - Subscribers are opaque; [emit] records which ones it calls and in
      which order. *)

From Stdlib Require Import ZArith Lia.
From stdpp Require Import base option list strings gmap pretty.

Local Open Scope Z_scope.

(** ** Declarations of [types.ts] *)

Inductive LogosStatus :=
  DISCONNECTED | CONNECTING | IDLE | LISTENING | THINKING | SPEAKING.

Inductive DeviceRole := doll | dev | guardian.

Inductive PersonaMode := child | senior.

#[global] Instance LogosStatus_eq_dec : EqDecision LogosStatus.
Proof. solve_decision. Defined.
#[global] Instance DeviceRole_eq_dec : EqDecision DeviceRole.
Proof. solve_decision. Defined.
#[global] Instance PersonaMode_eq_dec : EqDecision PersonaMode.
Proof. solve_decision. Defined.

(** [VadConfig]: every field optional. *)
Record VadConfig := {
  vc_sensitivity : option Z;
  vc_autoCalibrate : option bool;
  vc_timeout : option Z
}.

(** [Required<VadConfig>], the type of the field [vadConfig]. *)
Record RequiredVadConfig := {
  sensitivity : Z;
  autoCalibrate : bool;
  timeout : Z
}.

Record LogosClientOptions := {
  opt_serverUrl : string;
  opt_apiKey : option string;
  opt_deviceId : option string;
  opt_role : option DeviceRole;
  opt_mode : option PersonaMode;
  opt_vad : option VadConfig;
  opt_autoReconnect : option bool;
  opt_reconnectAttempts : option Z
}.

Record TextEventData := {
  td_userText : option string;
  td_aiText : string;
  td_isFinal : bool;
  td_isFiller : option bool
}.

Record AudioEventData := {
  ad_text : string;
  ad_priority : Z;
  ad_userText : option string;
  ad_isIntercom : option bool;
  ad_isFiller : option bool
}.

(** [SettingsEventData]; [None] is a field that is absent or [undefined]. *)
Record SettingsEventData := {
  sd_mode : option PersonaMode;
  sd_vadSensitivity : option Z;
  sd_vadAutoCalibrate : option bool;
  sd_vadTimeout : option Z
}.

(** An event of [LogosEvents] together with the arguments it is emitted
    with.  An [Error] is represented by its message. *)
Inductive Event :=
  | EvConnected
  | EvDisconnected
  | EvStatus (status : LogosStatus)
  | EvText (data : TextEventData)
  | EvAudio (data : AudioEventData)
  | EvSettings (data : SettingsEventData)
  | EvError (message : string).

(** The key of [LogosEvents] an event is emitted under. *)
Definition event_name (ev : Event) : string :=
  match ev with
  | EvConnected => "connected"
  | EvDisconnected => "disconnected"
  | EvStatus _ => "status"
  | EvText _ => "text"
  | EvAudio _ => "audio"
  | EvSettings _ => "settings"
  | EvError _ => "error"
  end.

(** ** Collaborators *)

(** A subscriber is known by its identity only. *)
Definition Handler := nat.

Definition Handle := positive.

(** The socket.io socket, as far as the client reads it. *)
Record Socket := { connected : bool }.

Inductive RecordingState := inactive | recording | paused.

#[global] Instance RecordingState_eq_dec : EqDecision RecordingState.
Proof. solve_decision. Defined.

Record Blob := { blob_bytes : list Z; blob_type : string }.

Definition blob_size (b : Blob) : Z := Z.of_nat (length (blob_bytes b)).

(** [new Blob(parts, { type })]: the parts' bytes in order. *)
Definition new_Blob (parts : list Blob) (type : string) : Blob :=
  {| blob_bytes := concat (map blob_bytes parts); blob_type := type |}.

Definition Track := nat.

Record MediaStream := { getTracks : list Track }.

Record MediaRecorder := {
  rec_state : RecordingState;
  rec_mimeType : string
}.

Inductive AudioContextState := suspended | running | closed.

#[global] Instance AudioContextState_eq_dec : EqDecision AudioContextState.
Proof. solve_decision. Defined.

Record AudioContext := { ctx_state : AudioContextState }.

Record AnalyserNode := { fftSize : Z }.

(** Messages sent with [socket.emit]. *)
Inductive Outbound :=
  | handshake (role : DeviceRole) (deviceId : string)
  | text_input (text : string) (mode : PersonaMode)
  | audio_input (audio : list Z) (mimeType : string) (mode : PersonaMode).

(** Messages and connection events the socket listeners are registered for. *)
Inductive Inbound :=
  | in_connect
  | in_disconnect
  | in_status (status : string)
  | in_set_settings (data : SettingsEventData)
  | in_live_text (role text : string) (isFinal : bool)
      (userText : option string) (isFiller : option bool)
  | in_audio_output (data : AudioEventData)
  | in_error (message : string)
  | in_auth_error (code message : string)
  | in_connect_error (message : string).

Inductive Level := warn | log | error.

(** The closures the client hands to [setTimeout] and [setInterval]. *)
Inductive Callback := vad_tick | silence_expired | restart_listening.

(** What the client does to the world outside its fields, in the order it
    does it. *)
Inductive Effect :=
  | Console (level : Level)
  | Emit (ev : Event) (handlers : list Handler)
  | SocketOpen (serverUrl : string) (transports : list string)
      (reconnection : bool) (reconnectionAttempts reconnectionDelay : Z)
      (auth : option string)
  | SocketOn (name : string)
  | SocketEmit (msg : Outbound)
  | SocketDisconnect
  | SetTimeout (cb : Callback) (delay : Z)
  | SetInterval (cb : Callback) (delay : Z)
  | ClearTimeout (h : Handle)
  | ClearInterval (h : Handle)
  | GetUserMedia
  | ContextResume
  | RecorderStart
  | RecorderStop
  | TrackStop (t : Track).

(** ** The instance fields *)

Record LogosClient := {
  (* Configuration *)
  serverUrl : string;
  apiKey : option string;
  deviceId : string;
  role : DeviceRole;
  mode : PersonaMode;
  vadConfig : RequiredVadConfig;
  autoReconnect : bool;
  reconnectAttempts : Z;
  (* State *)
  _status : LogosStatus;
  socket : option Socket;
  calibratedNoiseFloor : option Z;
  (* Audio *)
  mediaRecorder : option MediaRecorder;
  audioChunks : list Blob;
  audioContext : option AudioContext;
  analyser : option AnalyserNode;
  mediaStream : option MediaStream;
  silenceTimeout : option Handle;
  voiceDetected : bool;
  recordingStartTime : Z;
  vadIntervalId : option Handle;
  (* Event handlers *)
  eventHandlers : gmap string (list Handler)
}.

Definition MIN_SPEECH_DURATION : Z := 400.

(** Field assignments [this.f = v]. *)
Definition set_mode (v : PersonaMode) (c : LogosClient) : LogosClient :=
  {| serverUrl := serverUrl c; apiKey := apiKey c; deviceId := deviceId c;
     role := role c; mode := v; vadConfig := vadConfig c;
     autoReconnect := autoReconnect c; reconnectAttempts := reconnectAttempts c;
     _status := _status c; socket := socket c;
     calibratedNoiseFloor := calibratedNoiseFloor c;
     mediaRecorder := mediaRecorder c; audioChunks := audioChunks c;
     audioContext := audioContext c; analyser := analyser c;
     mediaStream := mediaStream c; silenceTimeout := silenceTimeout c;
     voiceDetected := voiceDetected c; recordingStartTime := recordingStartTime c;
     vadIntervalId := vadIntervalId c; eventHandlers := eventHandlers c |}.

Definition set_vadConfig (v : RequiredVadConfig) (c : LogosClient) : LogosClient :=
  {| serverUrl := serverUrl c; apiKey := apiKey c; deviceId := deviceId c;
     role := role c; mode := mode c; vadConfig := v;
     autoReconnect := autoReconnect c; reconnectAttempts := reconnectAttempts c;
     _status := _status c; socket := socket c;
     calibratedNoiseFloor := calibratedNoiseFloor c;
     mediaRecorder := mediaRecorder c; audioChunks := audioChunks c;
     audioContext := audioContext c; analyser := analyser c;
     mediaStream := mediaStream c; silenceTimeout := silenceTimeout c;
     voiceDetected := voiceDetected c; recordingStartTime := recordingStartTime c;
     vadIntervalId := vadIntervalId c; eventHandlers := eventHandlers c |}.

Definition set_status (v : LogosStatus) (c : LogosClient) : LogosClient :=
  {| serverUrl := serverUrl c; apiKey := apiKey c; deviceId := deviceId c;
     role := role c; mode := mode c; vadConfig := vadConfig c;
     autoReconnect := autoReconnect c; reconnectAttempts := reconnectAttempts c;
     _status := v; socket := socket c;
     calibratedNoiseFloor := calibratedNoiseFloor c;
     mediaRecorder := mediaRecorder c; audioChunks := audioChunks c;
     audioContext := audioContext c; analyser := analyser c;
     mediaStream := mediaStream c; silenceTimeout := silenceTimeout c;
     voiceDetected := voiceDetected c; recordingStartTime := recordingStartTime c;
     vadIntervalId := vadIntervalId c; eventHandlers := eventHandlers c |}.

Definition set_socket (v : option Socket) (c : LogosClient) : LogosClient :=
  {| serverUrl := serverUrl c; apiKey := apiKey c; deviceId := deviceId c;
     role := role c; mode := mode c; vadConfig := vadConfig c;
     autoReconnect := autoReconnect c; reconnectAttempts := reconnectAttempts c;
     _status := _status c; socket := v;
     calibratedNoiseFloor := calibratedNoiseFloor c;
     mediaRecorder := mediaRecorder c; audioChunks := audioChunks c;
     audioContext := audioContext c; analyser := analyser c;
     mediaStream := mediaStream c; silenceTimeout := silenceTimeout c;
     voiceDetected := voiceDetected c; recordingStartTime := recordingStartTime c;
     vadIntervalId := vadIntervalId c; eventHandlers := eventHandlers c |}.

Definition set_mediaRecorder (v : option MediaRecorder) (c : LogosClient) : LogosClient :=
  {| serverUrl := serverUrl c; apiKey := apiKey c; deviceId := deviceId c;
     role := role c; mode := mode c; vadConfig := vadConfig c;
     autoReconnect := autoReconnect c; reconnectAttempts := reconnectAttempts c;
     _status := _status c; socket := socket c;
     calibratedNoiseFloor := calibratedNoiseFloor c;
     mediaRecorder := v; audioChunks := audioChunks c;
     audioContext := audioContext c; analyser := analyser c;
     mediaStream := mediaStream c; silenceTimeout := silenceTimeout c;
     voiceDetected := voiceDetected c; recordingStartTime := recordingStartTime c;
     vadIntervalId := vadIntervalId c; eventHandlers := eventHandlers c |}.

Definition set_audioChunks (v : list Blob) (c : LogosClient) : LogosClient :=
  {| serverUrl := serverUrl c; apiKey := apiKey c; deviceId := deviceId c;
     role := role c; mode := mode c; vadConfig := vadConfig c;
     autoReconnect := autoReconnect c; reconnectAttempts := reconnectAttempts c;
     _status := _status c; socket := socket c;
     calibratedNoiseFloor := calibratedNoiseFloor c;
     mediaRecorder := mediaRecorder c; audioChunks := v;
     audioContext := audioContext c; analyser := analyser c;
     mediaStream := mediaStream c; silenceTimeout := silenceTimeout c;
     voiceDetected := voiceDetected c; recordingStartTime := recordingStartTime c;
     vadIntervalId := vadIntervalId c; eventHandlers := eventHandlers c |}.

Definition set_audioContext (v : option AudioContext) (c : LogosClient) : LogosClient :=
  {| serverUrl := serverUrl c; apiKey := apiKey c; deviceId := deviceId c;
     role := role c; mode := mode c; vadConfig := vadConfig c;
     autoReconnect := autoReconnect c; reconnectAttempts := reconnectAttempts c;
     _status := _status c; socket := socket c;
     calibratedNoiseFloor := calibratedNoiseFloor c;
     mediaRecorder := mediaRecorder c; audioChunks := audioChunks c;
     audioContext := v; analyser := analyser c;
     mediaStream := mediaStream c; silenceTimeout := silenceTimeout c;
     voiceDetected := voiceDetected c; recordingStartTime := recordingStartTime c;
     vadIntervalId := vadIntervalId c; eventHandlers := eventHandlers c |}.

Definition set_analyser (v : option AnalyserNode) (c : LogosClient) : LogosClient :=
  {| serverUrl := serverUrl c; apiKey := apiKey c; deviceId := deviceId c;
     role := role c; mode := mode c; vadConfig := vadConfig c;
     autoReconnect := autoReconnect c; reconnectAttempts := reconnectAttempts c;
     _status := _status c; socket := socket c;
     calibratedNoiseFloor := calibratedNoiseFloor c;
     mediaRecorder := mediaRecorder c; audioChunks := audioChunks c;
     audioContext := audioContext c; analyser := v;
     mediaStream := mediaStream c; silenceTimeout := silenceTimeout c;
     voiceDetected := voiceDetected c; recordingStartTime := recordingStartTime c;
     vadIntervalId := vadIntervalId c; eventHandlers := eventHandlers c |}.

Definition set_mediaStream (v : option MediaStream) (c : LogosClient) : LogosClient :=
  {| serverUrl := serverUrl c; apiKey := apiKey c; deviceId := deviceId c;
     role := role c; mode := mode c; vadConfig := vadConfig c;
     autoReconnect := autoReconnect c; reconnectAttempts := reconnectAttempts c;
     _status := _status c; socket := socket c;
     calibratedNoiseFloor := calibratedNoiseFloor c;
     mediaRecorder := mediaRecorder c; audioChunks := audioChunks c;
     audioContext := audioContext c; analyser := analyser c;
     mediaStream := v; silenceTimeout := silenceTimeout c;
     voiceDetected := voiceDetected c; recordingStartTime := recordingStartTime c;
     vadIntervalId := vadIntervalId c; eventHandlers := eventHandlers c |}.

Definition set_silenceTimeout (v : option Handle) (c : LogosClient) : LogosClient :=
  {| serverUrl := serverUrl c; apiKey := apiKey c; deviceId := deviceId c;
     role := role c; mode := mode c; vadConfig := vadConfig c;
     autoReconnect := autoReconnect c; reconnectAttempts := reconnectAttempts c;
     _status := _status c; socket := socket c;
     calibratedNoiseFloor := calibratedNoiseFloor c;
     mediaRecorder := mediaRecorder c; audioChunks := audioChunks c;
     audioContext := audioContext c; analyser := analyser c;
     mediaStream := mediaStream c; silenceTimeout := v;
     voiceDetected := voiceDetected c; recordingStartTime := recordingStartTime c;
     vadIntervalId := vadIntervalId c; eventHandlers := eventHandlers c |}.

Definition set_voiceDetected (v : bool) (c : LogosClient) : LogosClient :=
  {| serverUrl := serverUrl c; apiKey := apiKey c; deviceId := deviceId c;
     role := role c; mode := mode c; vadConfig := vadConfig c;
     autoReconnect := autoReconnect c; reconnectAttempts := reconnectAttempts c;
     _status := _status c; socket := socket c;
     calibratedNoiseFloor := calibratedNoiseFloor c;
     mediaRecorder := mediaRecorder c; audioChunks := audioChunks c;
     audioContext := audioContext c; analyser := analyser c;
     mediaStream := mediaStream c; silenceTimeout := silenceTimeout c;
     voiceDetected := v; recordingStartTime := recordingStartTime c;
     vadIntervalId := vadIntervalId c; eventHandlers := eventHandlers c |}.

Definition set_recordingStartTime (v : Z) (c : LogosClient) : LogosClient :=
  {| serverUrl := serverUrl c; apiKey := apiKey c; deviceId := deviceId c;
     role := role c; mode := mode c; vadConfig := vadConfig c;
     autoReconnect := autoReconnect c; reconnectAttempts := reconnectAttempts c;
     _status := _status c; socket := socket c;
     calibratedNoiseFloor := calibratedNoiseFloor c;
     mediaRecorder := mediaRecorder c; audioChunks := audioChunks c;
     audioContext := audioContext c; analyser := analyser c;
     mediaStream := mediaStream c; silenceTimeout := silenceTimeout c;
     voiceDetected := voiceDetected c; recordingStartTime := v;
     vadIntervalId := vadIntervalId c; eventHandlers := eventHandlers c |}.

Definition set_vadIntervalId (v : option Handle) (c : LogosClient) : LogosClient :=
  {| serverUrl := serverUrl c; apiKey := apiKey c; deviceId := deviceId c;
     role := role c; mode := mode c; vadConfig := vadConfig c;
     autoReconnect := autoReconnect c; reconnectAttempts := reconnectAttempts c;
     _status := _status c; socket := socket c;
     calibratedNoiseFloor := calibratedNoiseFloor c;
     mediaRecorder := mediaRecorder c; audioChunks := audioChunks c;
     audioContext := audioContext c; analyser := analyser c;
     mediaStream := mediaStream c; silenceTimeout := silenceTimeout c;
     voiceDetected := voiceDetected c; recordingStartTime := recordingStartTime c;
     vadIntervalId := v; eventHandlers := eventHandlers c |}.

Definition set_eventHandlers (v : gmap string (list Handler)) (c : LogosClient) : LogosClient :=
  {| serverUrl := serverUrl c; apiKey := apiKey c; deviceId := deviceId c;
     role := role c; mode := mode c; vadConfig := vadConfig c;
     autoReconnect := autoReconnect c; reconnectAttempts := reconnectAttempts c;
     _status := _status c; socket := socket c;
     calibratedNoiseFloor := calibratedNoiseFloor c;
     mediaRecorder := mediaRecorder c; audioChunks := audioChunks c;
     audioContext := audioContext c; analyser := analyser c;
     mediaStream := mediaStream c; silenceTimeout := silenceTimeout c;
     voiceDetected := voiceDetected c; recordingStartTime := recordingStartTime c;
     vadIntervalId := vadIntervalId c; eventHandlers := v |}.

(** ** The monad of methods *)

Record Result (A : Type) := Done {
  value : A;
  after : LogosClient;
  trace : list Effect
}.
Arguments Done {A} _ _ _.
Arguments value {A} _.
Arguments after {A} _.
Arguments trace {A} _.

Definition Proc (A : Type) : Type := LogosClient -> Result A.

#[global] Instance Proc_ret : MRet Proc := fun A a c => Done a c [].

#[global] Instance Proc_bind : MBind Proc := fun A B k m c =>
  match m c with
  | Done a c1 l1 =>
      match k a c1 with
      | Done b c2 l2 => Done b c2 (l1 ++ l2)
      end
  end.

Definition this : Proc LogosClient := fun c => Done c c [].

Definition assign (f : LogosClient -> LogosClient) : Proc unit :=
  fun c => Done tt (f c) [].

Definition perform (e : Effect) : Proc unit := fun c => Done tt c [e].

Definition skip : Proc unit := mret tt.

(** [l.forEach(f)] *)
Definition forEach {A} (f : A → Proc unit) (l : list A) : Proc unit :=
  foldr (λ x rest, f x ;; rest) skip l.
Arguments forEach : simpl never.


(** ** Construction and accessors *)

(** [a || b] on strings: the empty string is falsy. *)
Definition or_else (a : option string) (b : string) : string :=
  match a with
  | Some s => if decide (s = EmptyString) then b else s
  | None => b
  end.

(** The constructor.  [generated] is what [generateDeviceId()] returns (the
    stored identifier, or a new one made from the clock and a random
    number); like in the source it is computed only to be dropped when the
    options carry an identifier. *)
Definition new_LogosClient (options : LogosClientOptions) (generated : string)
  : LogosClient :=
  {| serverUrl := opt_serverUrl options;
     apiKey := opt_apiKey options;
     deviceId := or_else (opt_deviceId options) generated;
     role := default doll (opt_role options);
     mode := default child (opt_mode options);
     autoReconnect := default true (opt_autoReconnect options);
     reconnectAttempts := default 5 (opt_reconnectAttempts options);
     vadConfig :=
       {| sensitivity := default 5 (opt_vad options ≫= vc_sensitivity);
          autoCalibrate := default true (opt_vad options ≫= vc_autoCalibrate);
          timeout := default 700 (opt_vad options ≫= vc_timeout) |};
     _status := DISCONNECTED;
     socket := None;
     calibratedNoiseFloor := None;
     mediaRecorder := None;
     audioChunks := [];
     audioContext := None;
     analyser := None;
     mediaStream := None;
     silenceTimeout := None;
     voiceDetected := false;
     recordingStartTime := 0;
     vadIntervalId := None;
     eventHandlers := ∅ |}.

Definition status (c : LogosClient) : LogosStatus := _status c.

Definition currentMode (c : LogosClient) : PersonaMode := mode c.

(** [this.socket?.connected ?? false] *)
Definition isConnected (c : LogosClient) : bool :=
  match socket c with
  | Some s => connected s
  | None => false
  end.

(** ** Event dispatch *)

Definition on (event : string) (handler : Handler) : Proc unit :=
  c ← this;
  let handlers := default [] (eventHandlers c !! event) in
  assign (set_eventHandlers (<[event := handlers ++ [handler]]> (eventHandlers c))).

(** [handlers.splice(handlers.indexOf(handler), 1)] when the handler is there. *)
Fixpoint splice_first (handler : Handler) (handlers : list Handler) : list Handler :=
  match handlers with
  | [] => []
  | h :: rest => if decide (h = handler) then rest else h :: splice_first handler rest
  end.

Definition off (event : string) (handler : Handler) : Proc unit :=
  c ← this;
  match eventHandlers c !! event with
  | Some handlers =>
      assign (set_eventHandlers (<[event := splice_first handler handlers]> (eventHandlers c)))
  | None => skip
  end.

(** [emit]: every handler registered for the event is called, in order; the
    trace entry lists them (none when the event has no handler list). *)
Definition emit (ev : Event) : Proc unit :=
  c ← this;
  match eventHandlers c !! event_name ev with
  | Some handlers => perform (Emit ev handlers)
  | None => perform (Emit ev [])
  end.

Definition setStatus (status : LogosStatus) : Proc unit :=
  c ← this;
  if decide (_status c ≠ status) then
    assign (set_status status) ;;
    emit (EvStatus status)
  else skip.

(** [this.socket?.emit(...)] *)
Definition socket_emit (msg : Outbound) : Proc unit :=
  c ← this;
  match socket c with
  | Some _ => perform (SocketEmit msg)
  | None => skip
  end.

(** ** Settings and thresholds *)

Definition updateSettings (settings : SettingsEventData) : Proc unit :=
  (if sd_mode settings is Some m then assign (set_mode m) else skip) ;;
  (if sd_vadSensitivity settings is Some v then
     c ← this;
     assign (set_vadConfig
       {| sensitivity := v; autoCalibrate := autoCalibrate (vadConfig c);
          timeout := timeout (vadConfig c) |})
   else skip) ;;
  (if sd_vadAutoCalibrate settings is Some v then
     c ← this;
     assign (set_vadConfig
       {| sensitivity := sensitivity (vadConfig c); autoCalibrate := v;
          timeout := timeout (vadConfig c) |})
   else skip) ;;
  (if sd_vadTimeout settings is Some v then
     c ← this;
     assign (set_vadConfig
       {| sensitivity := sensitivity (vadConfig c);
          autoCalibrate := autoCalibrate (vadConfig c); timeout := v |})
   else skip).

Record VadThresholds := { silenceThreshold : Z; voiceThreshold : Z }.

Definition getVadThresholds (c : LogosClient) : VadThresholds :=
  let sensitivity := sensitivity (vadConfig c) in
  if negb (autoCalibrate (vadConfig c)) then
    let baseThreshold := Z.max 5 (35 - sensitivity * 3) in
    {| silenceThreshold := baseThreshold; voiceThreshold := baseThreshold + 5 |}
  else
    let noiseFloor := default 10 (calibratedNoiseFloor c) in
    let margin := 15 in
    {| silenceThreshold := noiseFloor + margin;
       voiceThreshold := noiseFloor + margin + 5 |}.

Definition getSupportedMimeType (isTypeSupported : string → bool) : string :=
  let types :=
    ["audio/webm;codecs=opus"; "audio/webm"; "audio/mp4"; "audio/ogg"; "audio/wav"] in
  or_else (List.find isTypeSupported types) EmptyString.

(** ** Capture *)

(** [this.mediaRecorder?.state === 'recording'] *)
Definition is_recording (c : LogosClient) : bool :=
  match mediaRecorder c with
  | Some r => if rec_state r is recording then true else false
  | None => false
  end.

(** The recorder after [stop()]: inactive at once; its [dataavailable] and
    [stop] events are queued. *)
Definition stopped (r : MediaRecorder) : MediaRecorder :=
  {| rec_state := inactive; rec_mimeType := rec_mimeType r |}.

Definition stopListening : Proc unit :=
  c ← this;
  (if vadIntervalId c is Some h then
     perform (ClearInterval h) ;;
     assign (set_vadIntervalId None)
   else skip) ;;
  (if silenceTimeout c is Some h then
     perform (ClearTimeout h) ;;
     assign (set_silenceTimeout None)
   else skip) ;;
  (if is_recording c then
     perform RecorderStop ;;
     assign (set_mediaRecorder (stopped <$> mediaRecorder c))
   else skip) ;;
  (if mediaStream c is Some stream then
     forEach (λ track, perform (TrackStop track)) (getTracks stream) ;;
     assign (set_mediaStream None)
   else skip).

(** The part of [handleRecordingStop] after [await audioBlob.arrayBuffer()]. *)
Definition handleRecordingStop_send (audioBlob : Blob) (mimeType : string) : Proc unit :=
  c ← this;
  socket_emit (audio_input (blob_bytes audioBlob) mimeType (mode c)).

(** [onstop] of the recorder; [now] is [Date.now()]. *)
Definition handleRecordingStop (now : Z) : Proc unit :=
  c ← this;
  let mimeType := or_else (rec_mimeType <$> mediaRecorder c) "audio/webm" in
  let audioBlob := new_Blob (audioChunks c) mimeType in
  let speechDuration := now - recordingStartTime c in
  if voiceDetected c && (2000 <? blob_size audioBlob)
       && (MIN_SPEECH_DURATION <=? speechDuration) then
    perform (Console log) ;;
    setStatus THINKING ;;
    handleRecordingStop_send audioBlob mimeType
  else
    perform (Console log) ;;
    setStatus IDLE ;;
    perform (SetTimeout restart_listening 500).

(** [ondataavailable] of the recorder. *)
Definition ondataavailable (data : Blob) : Proc unit :=
  c ← this;
  if 0 <? blob_size data then assign (set_audioChunks (audioChunks c ++ [data]))
  else skip.

(** The callback of the silence timer; [now] is [Date.now()]. *)
Definition silenceTimeout_expired (now : Z) : Proc unit :=
  c ← this;
  let speechDuration := now - recordingStartTime c in
  perform (Console log) ;;
  if MIN_SPEECH_DURATION <=? speechDuration then stopListening
  else
    assign (set_voiceDetected false) ;;
    assign (set_silenceTimeout None).

(** [average] is the sum of the bytes divided by their number, a rational;
    it is compared with an integer threshold by cross-multiplication.  Over
    an empty array it is [NaN], and both comparisons are false. *)
Definition average_gt (dataArray : list Z) (threshold : Z) : bool :=
  let n := Z.of_nat (length dataArray) in
  (0 <? n) && (threshold * n <? foldl Z.add 0 dataArray).

Definition average_lt (dataArray : list Z) (threshold : Z) : bool :=
  let n := Z.of_nat (length dataArray) in
  (0 <? n) && (foldl Z.add 0 dataArray <? threshold * n).

(** [dataArray] is what [getByteFrequencyData] fills in, [now] is
    [Date.now()], [timer] the handle [setTimeout] returns when called. *)
Definition detectVoiceActivity (dataArray : list Z) (now : Z) (timer : Handle)
  : Proc unit :=
  c ← this;
  if analyser c is None then skip else
  let thresholds := getVadThresholds c in
  (if average_gt dataArray (voiceThreshold thresholds) then
     (if negb (voiceDetected c) then
        perform (Console log) ;;
        assign (set_voiceDetected true) ;;
        assign (set_recordingStartTime now)
      else skip) ;;
     (if silenceTimeout c is Some h then
        perform (ClearTimeout h) ;;
        assign (set_silenceTimeout None)
      else skip)
   else skip) ;;
  c ← this;
  if average_lt dataArray (silenceThreshold thresholds) && voiceDetected c then
    if silenceTimeout c is None then
      perform (SetTimeout silence_expired (timeout (vadConfig c))) ;;
      assign (set_silenceTimeout (Some timer))
    else skip
  else skip.

(** The callback of the sampling interval. *)
Definition vadInterval_tick (dataArray : list Z) (now : Z) (timer : Handle)
  : Proc unit :=
  c ← this;
  if is_recording c then detectVoiceActivity dataArray now timer
  else skip.

(** What the browser answers during one [startListening]: the stream
    [getUserMedia] resolves with ([None] when it rejects), the state a new
    [AudioContext] starts in, the encodings the recorder supports, and the
    handle of the interval.  The other calls of the [try] block are taken
    to succeed. *)
Record Browser := {
  getUserMedia : option MediaStream;
  newContextState : AudioContextState;
  isTypeSupported : string → bool;
  intervalHandle : Handle
}.

Definition startListening (browser : Browser) : Proc unit :=
  c ← this;
  if negb (isConnected c) then perform (Console warn)
  else if decide (_status c = LISTENING) then perform (Console warn)
  else
    perform GetUserMedia ;;
    match getUserMedia browser with
    | Some stream =>
        assign (set_mediaStream (Some stream)) ;;
        (* Setup AudioContext for VAD *)
        (if audioContext c is None then
           assign (set_audioContext (Some {| ctx_state := newContextState browser |}))
         else skip) ;;
        c1 ← this;
        (if decide (ctx_state <$> audioContext c1 = Some suspended) then
           perform ContextResume ;;
           assign (set_audioContext (Some {| ctx_state := running |}))
         else skip) ;;
        assign (set_analyser (Some {| fftSize := 256 |})) ;;
        (* Reset VAD state *)
        assign (set_voiceDetected false) ;;
        assign (set_recordingStartTime 0) ;;
        (* Setup MediaRecorder *)
        let mimeType := getSupportedMimeType (isTypeSupported browser) in
        assign (set_mediaRecorder
          (Some {| rec_state := inactive; rec_mimeType := mimeType |})) ;;
        assign (set_audioChunks []) ;;
        perform RecorderStart ;;
        assign (set_mediaRecorder
          (Some {| rec_state := recording; rec_mimeType := mimeType |})) ;;
        setStatus LISTENING ;;
        (* Start VAD loop *)
        perform (SetInterval vad_tick 100) ;;
        assign (set_vadIntervalId (Some (intervalHandle browser)))
    | None =>
        perform (Console error) ;;
        emit (EvError "Microphone access denied") ;;
        setStatus IDLE
    end.

(** ** Connection *)

Definition sendText (text : string) : Proc unit :=
  c ← this;
  if negb (isConnected c) then perform (Console warn)
  else socket_emit (text_input text (mode c)).

(** The listeners [setupSocketListeners] registers, by the message or
    connection event they are registered for. *)
Definition socket_listener (msg : Inbound) : Proc unit :=
  match msg with
  | in_connect =>
      perform (Console log) ;;
      c ← this;
      socket_emit (handshake (role c) (deviceId c)) ;;
      setStatus IDLE ;;
      emit EvConnected
  | in_disconnect =>
      perform (Console log) ;;
      setStatus DISCONNECTED ;;
      emit EvDisconnected
  | in_status status =>
      if decide (status = "thinking") then setStatus THINKING
      else if decide (status = "idle") then setStatus IDLE
      else skip
  | in_set_settings data =>
      updateSettings data ;;
      emit (EvSettings data)
  | in_live_text role text isFinal userText isFiller =>
      if decide (role = "ai") then
        emit (EvText {| td_userText := userText; td_aiText := text;
                        td_isFinal := isFinal; td_isFiller := isFiller |})
      else skip
  | in_audio_output data =>
      emit (EvAudio {| ad_text := ad_text data; ad_priority := ad_priority data;
                       ad_userText := ad_userText data;
                       ad_isIntercom := ad_isIntercom data;
                       ad_isFiller := ad_isFiller data |})
  | in_error message =>
      perform (Console error) ;;
      emit (EvError message)
  | in_auth_error code message =>
      perform (Console error) ;;
      setStatus DISCONNECTED ;;
      emit (EvError ("Auth failed: " +:+ message +:+ " (" +:+ code +:+ ")"))
  | in_connect_error message =>
      perform (Console error) ;;
      setStatus DISCONNECTED ;;
      emit (EvError message)
  end.

(** The names [setupSocketListeners] registers a listener for, in order. *)
Definition listened : list string :=
  ["connect"; "disconnect"; "status"; "set_settings"; "live_text";
   "audio_output"; "error"; "auth_error"; "connect_error"].

Definition setupSocketListeners : Proc unit :=
  c ← this;
  if socket c is None then skip else
  forEach (λ name, perform (SocketOn name)) listened.

Definition connect : Proc unit :=
  c ← this;
  if isConnected c then perform (Console warn)
  else
    setStatus CONNECTING ;;
    perform (SocketOpen (serverUrl c) ["websocket"; "polling"]
               (autoReconnect c) (reconnectAttempts c) 1000
               (match apiKey c with
                | Some k => if decide (k = EmptyString) then None else Some k
                | None => None
                end)) ;;
    assign (set_socket (Some {| connected := false |})) ;;
    setupSocketListeners.

Definition disconnect : Proc unit :=
  stopListening ;;
  c ← this;
  (if socket c is None then skip else perform SocketDisconnect) ;;
  assign (set_socket None) ;;
  setStatus DISCONNECTED.

(** ** Reading a trace *)

Definition status_events (l : list Effect) : list LogosStatus :=
  omap (λ e, if e is Emit (EvStatus s) _ then Some s else None) l.

Definition error_events (l : list Effect) : list string :=
  omap (λ e, if e is Emit (EvError m) _ then Some m else None) l.

Definition sent (l : list Effect) : list Outbound :=
  omap (λ e, if e is SocketEmit m then Some m else None) l.

Definition timeouts_set (l : list Effect) : list (Callback * Z) :=
  omap (λ e, if e is SetTimeout cb d then Some (cb, d) else None) l.

(** Cancelling a schedule, and letting go of an audio resource. *)
Definition is_cancel (e : Effect) : bool :=
  match e with
  | ClearInterval _ | ClearTimeout _ => true
  | _ => false
  end.

Definition is_release (e : Effect) : bool :=
  match e with
  | RecorderStop | TrackStop _ => true
  | _ => false
  end.

(** Starting anything that captures or transmits audio. *)
Definition is_capture_action (e : Effect) : bool :=
  match e with
  | RecorderStart | SetInterval _ _ | SetTimeout _ _ | SocketEmit _
  | ContextResume => true
  | _ => false
  end.

(** A run of status requests, oldest first. *)
Definition setStatus_each (requests : list LogosStatus) : Proc unit :=
  foldr (λ s rest, setStatus s ;; rest) skip requests.

(** ** Sample clients *)

Definition sample_options : LogosClientOptions :=
  {| opt_serverUrl := "http://localhost:8000"; opt_apiKey := Some "sk-xxx";
     opt_deviceId := None; opt_role := None; opt_mode := Some child;
     opt_vad := None; opt_autoReconnect := None; opt_reconnectAttempts := None |}.

Definition fresh_client : LogosClient := new_LogosClient sample_options "logos_1_abc".

(** The socket library flips [connected] before it calls the listeners of
    [connect], and after a [disconnect]. *)
Definition socket_becomes (up : bool) : Proc unit :=
  c ← this;
  if socket c is None then skip else assign (set_socket (Some {| connected := up |})).

(** [connect()] followed by the channel coming up. *)
Definition idle_client : LogosClient :=
  after ((on "status" 7%nat ;; on "error" 8%nat ;; connect ;;
          socket_becomes true ;; socket_listener in_connect) fresh_client).

Definition sample_browser : Browser :=
  {| getUserMedia := Some {| getTracks := [0%nat] |};
     newContextState := running;
     isTypeSupported := λ t, bool_decide (t = "audio/webm");
     intervalHandle := 3%positive |}.

Definition denying_browser : Browser :=
  {| getUserMedia := None;
     newContextState := running;
     isTypeSupported := λ t, bool_decide (t = "audio/webm");
     intervalHandle := 3%positive |}.

Definition loud : list Z := repeat 200 128.
Definition quiet : list Z := repeat 0 128.

(** Listening, voice heard at time 1000, then quiet: the silence timer is
    pending with handle 4. *)
Definition listening_client : LogosClient :=
  after ((startListening sample_browser ;;
          vadInterval_tick loud 1000 4%positive ;;
          vadInterval_tick quiet 1100 4%positive) idle_client).

Definition utterance : Blob :=
  {| blob_bytes := repeat 1 3000; blob_type := "audio/webm" |}.

(** ** What the statements speak of *)

(** The handlers [emit] finds registered under a name. *)
Definition subscribers (c : LogosClient) (name : string) : list Handler :=
  default [] (eventHandlers c !! name).

(** The fields [updateSettings] has no business with. *)
Definition outside_settings (c : LogosClient) :=
  (serverUrl c, apiKey c, deviceId c, role c, autoReconnect c, reconnectAttempts c,
   _status c, socket c, calibratedNoiseFloor c,
   mediaRecorder c, audioChunks c, audioContext c, analyser c, mediaStream c,
   silenceTimeout c, voiceDetected c, recordingStartTime c, vadIntervalId c,
   eventHandlers c).

(** What [stopListening] finds to cancel: the sampling interval and the
    silence timer, when pending. *)
Definition pending_schedules (c : LogosClient) : list Effect :=
  (if vadIntervalId c is Some h then [ClearInterval h] else [])
  ++ (if silenceTimeout c is Some h then [ClearTimeout h] else []).

(** What it finds to let go of: the recorder, when recording, and every
    track of the media stream, when there is one. *)
Definition held_audio (c : LogosClient) : list Effect :=
  (if is_recording c then [RecorderStop] else [])
  ++ (if mediaStream c is Some stream then TrackStop <$> getTracks stream else []).

(** The client after [disconnect()] was called while it was listening and
    the recorder has delivered its data. *)
Definition hung_up_client : LogosClient :=
  after ((disconnect ;; ondataavailable utterance) listening_client).

(** ** The device identifier, and runs of callbacks *)

(** [generateDeviceId()].  [localStorage] is [None] where the global is not
    defined; [now] is [Date.now()] and [random36] is
    [Math.random().toString(36)].  Returns the identifier and the storage
    it leaves. *)
Definition generateDeviceId (now : Z) (random36 : string)
    (localStorage : option (gmap string string))
  : string * option (gmap string string) :=
  let stored :=
    match localStorage with
    | Some items => items !! "logos_device_id"
    | None => None
    end in
  match stored with
  | Some (String a id) => (String a id, localStorage)
  | _ =>
      let newId := "logos_" +:+ pretty now +:+ "_" +:+ String.substring 2%nat 9%nat random36 in
      (newId,
       match localStorage with
       | Some items => Some (<["logos_device_id" := newId]> items)
       | None => None
       end)
  end.

(** The list [getSupportedMimeType] searches, in its order. *)
Definition preferred_types : list string :=
  ["audio/webm;codecs=opus"; "audio/webm"; "audio/mp4"; "audio/ogg"; "audio/wav"].

(** One firing of the sampling interval: the frequency bytes read, the
    clock, and the handle [setTimeout] would return. *)
Definition Tick : Type := list Z * Z * Handle.

Definition vadInterval_ticks (ticks : list Tick) : Proc unit :=
  forEach (λ t, vadInterval_tick t.1.1 t.1.2 t.2) ticks.

(** The recorder delivering several blobs in a row. *)
Definition ondataavailable_each (blobs : list Blob) : Proc unit :=
  forEach ondataavailable blobs.

(** Registering several handlers under one name, in order. *)
Definition on_each (event : string) (handlers : list Handler) : Proc unit :=
  forEach (on event) handlers.

(** Silence timers set minus silence timers cancelled in a trace. *)
Definition outstanding (l : list Effect) : Z :=
  foldr (λ e n,
    match e with
    | SetTimeout silence_expired _ => n + 1
    | ClearTimeout _ => n - 1
    | _ => n
    end) 0 l.

Definition pending (c : LogosClient) : Z :=
  if silenceTimeout c is Some _ then 1 else 0.

(** [later] laid over [earlier]: a field of [later] wins when present. *)
Definition settings_over (later earlier : SettingsEventData) : SettingsEventData :=
  {| sd_mode := if sd_mode later is Some m then Some m else sd_mode earlier;
     sd_vadSensitivity :=
       if sd_vadSensitivity later is Some v then Some v else sd_vadSensitivity earlier;
     sd_vadAutoCalibrate :=
       if sd_vadAutoCalibrate later is Some v then Some v
       else sd_vadAutoCalibrate earlier;
     sd_vadTimeout :=
       if sd_vadTimeout later is Some v then Some v else sd_vadTimeout earlier |}.

Definition no_settings : SettingsEventData :=
  {| sd_mode := None; sd_vadSensitivity := None; sd_vadAutoCalibrate := None;
     sd_vadTimeout := None |}.

(** A list of statuses in which each differs from the one before it, the
    first from [prev]. *)
Fixpoint edges (prev : LogosStatus) (l : list LogosStatus) : Prop :=
  match l with
  | [] => True
  | s :: rest => s ≠ prev ∧ edges s rest
  end.

(** The fields of the "Audio" group. *)
Definition capture_fields (c : LogosClient) :=
  (mediaRecorder c, audioChunks c, audioContext c, analyser c, mediaStream c,
   silenceTimeout c, voiceDetected c, recordingStartTime c, vadIntervalId c).

(** What [stopListening] and the sampling leave alone. *)
Definition session_fields (c : LogosClient) :=
  (serverUrl c, apiKey c, deviceId c, role c, mode c, vadConfig c,
   autoReconnect c, reconnectAttempts c, _status c, socket c,
   calibratedNoiseFloor c, eventHandlers c).

(** Calls on the microphone, the recorder, the audio context and the
    timers. *)
Definition touches_capture (e : Effect) : bool :=
  match e with
  | SetTimeout _ _ | SetInterval _ _ | ClearTimeout _ | ClearInterval _
  | GetUserMedia | ContextResume | RecorderStart | RecorderStop | TrackStop _ => true
  | _ => false
  end.

(** A computation that leaves capture, the socket and the subscribers as
    they are. *)
Definition keeps_capture {A} (m : Proc A) : Prop :=
  ∀ c,
    capture_fields (after (m c)) = capture_fields c
    ∧ socket (after (m c)) = socket c
    ∧ eventHandlers (after (m c)) = eventHandlers c
    ∧ Forall (λ e, touches_capture e = false) (trace (m c)).

(** The calls in a trace that take the microphone, start the recorder or
    schedule the sampling. *)
Definition acquisitions (l : list Effect) : list Effect :=
  List.filter
    (λ e, match e with
          | GetUserMedia | RecorderStart | SetInterval _ _ => true
          | _ => false
          end) l.

(** What sampling may do: log, and set or cancel the silence timer. *)
Definition sampling_effect (e : Effect) : bool :=
  match e with
  | Console _ | SetTimeout silence_expired _ | ClearTimeout _ => true
  | _ => false
  end.

(** The audio fields sampling only reads. *)
Definition sampled_fields (c : LogosClient) :=
  (mediaRecorder c, audioChunks c, audioContext c, analyser c, mediaStream c,
   vadIntervalId c).

(** [c'] and [l] are what some sampling made of [c]. *)
Definition sampling_step (c c' : LogosClient) (l : list Effect) : Prop :=
  session_fields c' = session_fields c
  ∧ sampled_fields c' = sampled_fields c
  ∧ outstanding l = pending c' - pending c
  ∧ (voiceDetected c = true →
     voiceDetected c' = true ∧ recordingStartTime c' = recordingStartTime c)
  ∧ Forall (λ e, sampling_effect e = true) l.

(** An outbound message that, if it carries audio, names its encoding. *)
Definition has_mime_type (msg : Outbound) : Prop :=
  match msg with
  | audio_input _ mimeType _ => mimeType ≠ EmptyString
  | _ => True
  end.

(** One round of capture as the browser drives it: a start, a tick with
    [loudData] at [t0], a tick with [quietData] at [t1], the silence timer
    firing at [t2], then the recorder's [dataavailable] and [stop] events,
    the latter at [t3]. *)
Definition capture_round (browser : Browser) (loudData quietData : list Z)
    (t0 t1 t2 t3 : Z) (timer : Handle) (data : Blob) : Proc unit :=
  startListening browser ;;
  vadInterval_tick loudData t0 timer ;;
  vadInterval_tick quietData t1 timer ;;
  silenceTimeout_expired t2 ;;
  ondataavailable data ;;
  handleRecordingStop t3.

(** A noise blip: a start, a loud tick at [t0], a quiet tick at [t1], and
    the silence timer firing at [t2]. *)
Definition blip_round (browser : Browser) (loudData quietData : list Z)
    (t0 t1 t2 : Z) (timer : Handle) : Proc unit :=
  startListening browser ;;
  vadInterval_tick loudData t0 timer ;;
  vadInterval_tick quietData t1 timer ;;
  silenceTimeout_expired t2.

(** ** Running the monad *)

(** Unfolds the monad's operations in the goal. *)
Ltac exec :=
  repeat (progress
    (unfold mbind, mret, Proc_bind, Proc_ret, this, assign, perform, skip;
     cbn [value after trace app])).

(** The monad laws, at every client. *)
Lemma ret_bind {A B} (a : A) (k : A → Proc B) c : (mret a ≫= k) c = k a c.
Proof. unfold mbind, mret, Proc_bind, Proc_ret. by destruct (k a c). Qed.

Lemma bind_ret {A} (m : Proc A) c : (m ≫= mret) c = m c.
Proof.
  unfold mbind, mret, Proc_bind, Proc_ret. destruct (m c) as [a c1 l1].
  by rewrite app_nil_r.
Qed.

Lemma bind_assoc {A B C} (m : Proc A) (k : A → Proc B) (h : B → Proc C) c :
  ((m ≫= k) ≫= h) c = (m ≫= λ a, k a ≫= h) c.
Proof.
  unfold mbind, Proc_bind. destruct (m c) as [a c1 l1], (k a c1) as [b c2 l2].
  destruct (h b c2) as [d c3 l3]. by rewrite app_assoc.
Qed.

Lemma bind_after {A B} (m : Proc A) (k : A → Proc B) c :
  after ((m ≫= k) c) = after (k (value (m c)) (after (m c))).
Proof.
  unfold mbind, Proc_bind. destruct (m c) as [a c1 l1]. cbn [value after trace].
  by destruct (k a c1).
Qed.

Lemma bind_trace {A B} (m : Proc A) (k : A → Proc B) c :
  trace ((m ≫= k) c) = trace (m c) ++ trace (k (value (m c)) (after (m c))).
Proof.
  unfold mbind, Proc_bind. destruct (m c) as [a c1 l1]. cbn [value after trace].
  by destruct (k a c1).
Qed.

Lemma forEach_run {A} (e : A → Effect) (f : A → Proc unit) l c :
  (∀ x c', f x c' = Done tt c' [e x]) →
  forEach f l c = Done tt c (e <$> l).
Proof.
  intros Hf. induction l as [|x l IH]; [done|].
  change (forEach f (x :: l)) with (f x ;; forEach f l).
  unfold mbind, Proc_bind. rewrite Hf. cbn [after trace]. by rewrite IH.
Qed.

Lemma status_events_app l1 l2 :
  status_events (l1 ++ l2) = status_events l1 ++ status_events l2.
Proof. apply omap_app. Qed.

Lemma set_status_same c : set_status (_status c) c = c.
Proof. by destruct c. Qed.

(** One call of [emit] is one entry of the trace, whatever is registered. *)
Lemma emit_run ev c :
  emit ev c = Done tt c [Emit ev (subscribers c (event_name ev))].
Proof.
  unfold emit, subscribers. exec.
  by destruct (eventHandlers c !! event_name ev).
Qed.

Lemma setStatus_run c s :
  setStatus s c =
  Done tt (set_status s c)
    (if decide (_status c = s) then [] else [Emit (EvStatus s) (subscribers c "status")]).
Proof.
  unfold setStatus. exec. destruct (decide (_status c = s)) as [<-|Hne].
  - rewrite decide_False by (by intros []). exec. by rewrite set_status_same.
  - rewrite decide_True by done. exec. by rewrite emit_run.
Qed.

Lemma setStatus_after c s : _status (after (setStatus s c)) = s.
Proof. by rewrite setStatus_run. Qed.

Lemma setStatus_status_events c s :
  status_events (trace (setStatus s c)) = if decide (s = _status c) then [] else [s].
Proof.
  rewrite setStatus_run. cbn [trace].
  destruct (decide (_status c = s)), (decide (s = _status c)); done.
Qed.

Lemma last_any_default {A} (l : list A) (d d' : A) :
  l ≠ [] → List.last l d = List.last l d'.
Proof.
  induction l as [|x [|y l] IH]; intros Hne; [done|done|].
  change (List.last (y :: l) d = List.last (y :: l) d'). by apply IH.
Qed.

Lemma setStatus_each_last requests : ∀ c,
  _status (after (setStatus_each requests c)) = List.last requests (_status c).
Proof.
  induction requests as [|s rest IH]; intros c; [done|].
  change (setStatus_each (s :: rest)) with (setStatus s ;; setStatus_each rest).
  rewrite bind_after, IH, setStatus_after.
  destruct rest as [|y l]; [done|].
  change (List.last (s :: y :: l) (_status c)) with (List.last (y :: l) (_status c)).
  by apply last_any_default.
Qed.

(** ** Session status *)

(** C5. [setStatus] emits a status event exactly when the requested status
    differs from the stored one, and then exactly one, carrying the
    requested status; requesting the same status twice in a row emits what
    the first request alone emits (one event from a different status); and
    after any run of requests the stored status is the last one requested. *)
Theorem setStatus_emits_iff_changed (c : LogosClient) (requested : LogosStatus) :
  let r := setStatus requested c in
  ((∃ hs, Emit (EvStatus requested) hs ∈ trace r) ↔ requested ≠ _status c)
  ∧ status_events (trace r) = (if decide (requested = _status c) then [] else [requested])
  ∧ _status (after r) = requested
  ∧ status_events (trace ((setStatus requested ;; setStatus requested) c))
    = (if decide (requested = _status c) then [] else [requested])
  ∧ ∀ earlier, _status (after (setStatus_each (earlier ++ [requested]) c)) = requested.
Proof.
  cbn zeta. split_and!.
  - rewrite setStatus_run. cbn [trace]. destruct (decide (_status c = requested)).
    + split; [intros [hs Hin]; by apply elem_of_nil in Hin | done].
    + split; [congruence|]. intros _. eexists. by apply list_elem_of_singleton.
  - apply setStatus_status_events.
  - apply setStatus_after.
  - rewrite bind_trace, status_events_app, !setStatus_status_events.
    rewrite setStatus_after. rewrite (decide_True (P := requested = requested)) by done.
    by rewrite app_nil_r.
  - intros earlier. by rewrite setStatus_each_last, last_last.
Qed.

(** ** Thresholds and settings *)

(** C2. The thresholds [getVadThresholds] returns.  Without calibration the
    silence threshold is [max(5, 35 - sensitivity*3)], at least 5 for every
    sensitivity, and the voice threshold is 5 above it.  With calibration
    they are the noise floor plus 15 and plus 20, the noise floor being the
    calibrated value, or 10 when there is none: 25 and 30. *)
Theorem getVadThresholds_spec (c : LogosClient) :
  let t := getVadThresholds c in
  if autoCalibrate (vadConfig c) then
    match calibratedNoiseFloor c with
    | Some noiseFloor =>
        silenceThreshold t = noiseFloor + 15 ∧ voiceThreshold t = noiseFloor + 20
    | None => silenceThreshold t = 25 ∧ voiceThreshold t = 30
    end
  else
    silenceThreshold t = Z.max 5 (35 - sensitivity (vadConfig c) * 3)
    ∧ voiceThreshold t = silenceThreshold t + 5
    ∧ 5 ≤ silenceThreshold t.
Proof.
  unfold getVadThresholds. cbn zeta.
  destruct (autoCalibrate (vadConfig c)); cbn [negb].
  - destruct (calibratedNoiseFloor c) as [noiseFloor|];
      cbn [from_option id silenceThreshold voiceThreshold]; lia.
  - cbn [silenceThreshold voiceThreshold]. lia.
Qed.

(** Thresholds of the default configuration, and of sensitivities 1, 5 and
    10 without calibration. *)
Example thresholds_default :
  getVadThresholds fresh_client = {| silenceThreshold := 25; voiceThreshold := 30 |}.
Proof. reflexivity. Qed.

Example thresholds_by_sensitivity :
  let at_sensitivity s :=
    getVadThresholds
      (set_vadConfig {| sensitivity := s; autoCalibrate := false; timeout := 700 |}
         fresh_client) in
  at_sensitivity 1 = {| silenceThreshold := 32; voiceThreshold := 37 |}
  ∧ at_sensitivity 5 = {| silenceThreshold := 20; voiceThreshold := 25 |}
  ∧ at_sensitivity 10 = {| silenceThreshold := 5; voiceThreshold := 10 |}.
Proof. by vm_compute. Qed.

(** C10. [updateSettings] sets each of mode, sensitivity, auto-calibration
    and timeout to the value its argument carries for it and keeps the
    prior value of a field that is absent or undefined; no other field of
    the client changes, and nothing is called on a collaborator. *)
Theorem updateSettings_frame (c : LogosClient) (settings : SettingsEventData) :
  let r := updateSettings settings c in
  mode (after r) = default (mode c) (sd_mode settings)
  ∧ sensitivity (vadConfig (after r))
    = default (sensitivity (vadConfig c)) (sd_vadSensitivity settings)
  ∧ autoCalibrate (vadConfig (after r))
    = default (autoCalibrate (vadConfig c)) (sd_vadAutoCalibrate settings)
  ∧ timeout (vadConfig (after r))
    = default (timeout (vadConfig c)) (sd_vadTimeout settings)
  ∧ outside_settings (after r) = outside_settings c
  ∧ trace r = [].
Proof.
  destruct settings as [[m|] [s|] [a|] [t|]]; unfold updateSettings; exec;
    cbn; done.
Qed.

(** ** Messages from the backend *)

(** C6. An [auth_error] message leaves the status DISCONNECTED whatever it
    was, and emits one error event; its message is
    [Auth failed: <message> (<code>)], which contains both the message and
    the code received. *)
Theorem auth_error_disconnects (c : LogosClient) (code message : string) :
  let r := socket_listener (in_auth_error code message) c in
  _status (after r) = DISCONNECTED
  ∧ error_events (trace r) = ["Auth failed: " +:+ message +:+ " (" +:+ code +:+ ")"]
  ∧ ∃ before between behind,
      error_events (trace r) = [before +:+ message +:+ between +:+ code +:+ behind].
Proof.
  cbn zeta. unfold socket_listener. exec. rewrite setStatus_run, emit_run. exec.
  split_and!; [done| |].
  - by destruct (decide (_status c = DISCONNECTED)).
  - exists "Auth failed: ", " (", ")".
    by destruct (decide (_status c = DISCONNECTED)).
Qed.

(** C8. An [error] message emits one error event carrying the message; the
    client's fields, the status among them, are what they were, and no
    status event is emitted. *)
Theorem server_error_keeps_status (c : LogosClient) (message : string) :
  let r := socket_listener (in_error message) c in
  error_events (trace r) = [message]
  ∧ status_events (trace r) = []
  ∧ _status (after r) = _status c
  ∧ after r = c.
Proof.
  cbn zeta. unfold socket_listener. exec. rewrite emit_run. exec. done.
Qed.

(** ** Connecting *)

Lemma setupSocketListeners_run c :
  setupSocketListeners c
  = Done tt c (if socket c is None then [] else SocketOn <$> listened).
Proof.
  unfold setupSocketListeners. exec. destruct (socket c); [|done].
  by rewrite (forEach_run SocketOn).
Qed.

Lemma status_events_SocketOn names : status_events (SocketOn <$> names) = [].
Proof. by induction names. Qed.

(** C7, as the code has it.  [connect()] on a client whose socket is
    connected only warns: no field changes, the status included.  On any
    other client it leaves the status CONNECTING, with a new socket that is
    not yet connected. *)
Theorem connect_status (c : LogosClient) :
  let r := connect c in
  if isConnected c then
    after r = c ∧ trace r = [Console warn]
  else
    _status (after r) = CONNECTING
    ∧ socket (after r) = Some {| connected := false |}
    ∧ status_events (trace r) = (if decide (CONNECTING = _status c) then [] else [CONNECTING]).
Proof.
  cbn zeta. unfold connect. exec. destruct (isConnected c); exec; [done|].
  rewrite setStatus_run, setupSocketListeners_run. cbn [after trace socket set_socket].
  split_and!; [reflexivity..|].
  rewrite status_events_app.
  change (status_events (?e :: ?l)) with (status_events l).
  rewrite status_events_SocketOn, app_nil_r.
  by destruct (decide (_status c = CONNECTING)), (decide (CONNECTING = _status c)).
Qed.

(** C7 fails as stated: [idle_client] is connected and IDLE, and [connect()]
    leaves it IDLE. *)
Lemma connect_when_connected_not_connecting :
  isConnected idle_client = true
  ∧ _status idle_client = IDLE
  ∧ _status (after (connect idle_client)) ≠ CONNECTING.
Proof. by vm_compute. Qed.

(** ** Stopping capture *)

Lemma stopListening_run c :
  stopListening c =
  Done tt
    (set_mediaStream None
      (set_mediaRecorder
        (if is_recording c then stopped <$> mediaRecorder c else mediaRecorder c)
        (set_silenceTimeout None (set_vadIntervalId None c))))
    (pending_schedules c ++ held_audio c).
Proof.
  unfold stopListening, pending_schedules, held_audio, is_recording. exec.
  destruct c as [? ? ? ? ? ? ? ? ? ? ? rec ? ? ? stream timer ? ? interval ?].
  cbn [vadIntervalId silenceTimeout mediaRecorder mediaStream].
  destruct interval as [hi|], timer as [ht|], rec as [[[] mt]|], stream as [[tracks]|];
    cbn; rewrite ?(forEach_run TrackStop) by done; cbn;
    rewrite ?app_nil_r; reflexivity.
Qed.

Lemma pending_schedules_cancel c :
  Forall (λ e, is_cancel e = true) (pending_schedules c).
Proof.
  unfold pending_schedules.
  destruct (vadIntervalId c), (silenceTimeout c); repeat constructor.
Qed.

Lemma held_audio_release c :
  Forall (λ e, is_release e = true) (held_audio c).
Proof.
  unfold held_audio. apply Forall_app. split.
  - destruct (is_recording c); repeat constructor.
  - destruct (mediaStream c) as [[tracks]|]; [|constructor].
    by apply Forall_fmap, Forall_forall.
Qed.

Lemma stopListening_not_recording c :
  is_recording (after (stopListening c)) = false.
Proof.
  rewrite stopListening_run. unfold is_recording. cbn.
  destruct (mediaRecorder c) as [[[] ?]|]; done.
Qed.

(** The recorder is told to stop exactly when it was recording. *)
Lemma stopListening_stops_recorder c :
  RecorderStop ∈ trace (stopListening c) ↔ is_recording c = true.
Proof.
  rewrite stopListening_run. cbn [trace]. unfold held_audio.
  rewrite !elem_of_app. split.
  - intros [Hin|[Hin|Hin]].
    + pose proof (pending_schedules_cancel c) as Hcancel.
      rewrite Forall_forall in Hcancel. by apply Hcancel in Hin.
    + destruct (is_recording c); [done|by apply elem_of_nil in Hin].
    + destruct (mediaStream c); [|by apply elem_of_nil in Hin].
      by apply list_elem_of_fmap in Hin as (? & ? & ?).
  - intros ->. right. left. by apply list_elem_of_singleton.
Qed.

(** C4. [stopListening] twice in a row.  The first call cancels the
    schedules that are pending, then stops the recorder and the tracks that
    are held, in this order, one call for each; after it none is left, so
    the second call finds nothing: it leaves the fields and adds nothing to
    the trace, and the two calls together do what the first does. *)
Theorem stopListening_idempotent (c : LogosClient) :
  let first := stopListening c in
  let second := stopListening (after first) in
  trace second = []
  ∧ after second = after first
  ∧ trace ((stopListening ;; stopListening) c) = trace first
  ∧ trace first = pending_schedules c ++ held_audio c
  ∧ Forall (λ e, is_cancel e = true) (pending_schedules c)
  ∧ Forall (λ e, is_release e = true) (held_audio c)
  ∧ vadIntervalId (after first) = None
  ∧ silenceTimeout (after first) = None
  ∧ is_recording (after first) = false
  ∧ mediaStream (after first) = None.
Proof.
  cbn zeta. pose proof (stopListening_not_recording c) as Hrec.
  assert (trace (stopListening (after (stopListening c))) = []) as Hsecond.
  { rewrite (stopListening_run (after _)). cbn [trace].
    unfold pending_schedules, held_audio. rewrite Hrec.
    rewrite stopListening_run. done. }
  split_and!; try done.
  - rewrite (stopListening_run (after _)), Hrec. rewrite stopListening_run.
    cbn [after]. by destruct c.
  - rewrite bind_trace, Hsecond. apply app_nil_r.
  - by rewrite stopListening_run.
  - apply pending_schedules_cancel.
  - apply held_audio_release.
  - by rewrite stopListening_run.
  - by rewrite stopListening_run.
  - by rewrite stopListening_run.
Qed.

(** ** The silence timer *)

(** C3. When the silence timer fires less than 400 ms after the recorded
    start of speech, the voice-detected flag and the timer handle are
    cleared and capture goes on: recorder, stream, sampling interval and
    status are as they were, and nothing is cancelled or released.  From
    400 ms on the callback does what [stopListening] does: the schedules
    are gone, the stream is released, and a recorder that was recording is
    stopped, which is what makes it fire its [stop] event. *)
Theorem silence_timer_expiry (c : LogosClient) (now : Z) :
  let r := silenceTimeout_expired now c in
  if now - recordingStartTime c <? MIN_SPEECH_DURATION then
    voiceDetected (after r) = false
    ∧ silenceTimeout (after r) = None
    ∧ mediaRecorder (after r) = mediaRecorder c
    ∧ mediaStream (after r) = mediaStream c
    ∧ vadIntervalId (after r) = vadIntervalId c
    ∧ _status (after r) = _status c
    ∧ trace r = [Console log]
  else
    after r = after (stopListening c)
    ∧ trace r = Console log :: trace (stopListening c)
    ∧ vadIntervalId (after r) = None
    ∧ silenceTimeout (after r) = None
    ∧ mediaStream (after r) = None
    ∧ is_recording (after r) = false
    ∧ (RecorderStop ∈ trace r ↔ is_recording c = true).
Proof.
  cbn zeta. unfold silenceTimeout_expired. exec.
  rewrite (Z.ltb_antisym MIN_SPEECH_DURATION).
  destruct (MIN_SPEECH_DURATION <=? now - recordingStartTime c); cbn [negb]; exec;
    [|done].
  pose proof (stopListening_not_recording c) as Hrec.
  pose proof (stopListening_stops_recorder c) as Hstop.
  rewrite stopListening_run in *. cbn [value after trace] in *.
  split_and!; try done.
  rewrite elem_of_cons, Hstop. split; [by intros [?|?] | by right].
Qed.

(** The timer of [listening_client], whose speech started at 1000, firing
    at 1300 and at 1800. *)
Example silence_after_300ms_keeps_listening :
  let r := silenceTimeout_expired 1300 listening_client in
  voiceDetected (after r) = false
  ∧ silenceTimeout (after r) = None
  ∧ is_recording (after r) = true
  ∧ _status (after r) = LISTENING
  ∧ trace r = [Console log].
Proof. by vm_compute. Qed.

Example silence_after_800ms_stops :
  let r := silenceTimeout_expired 1800 listening_client in
  is_recording (after r) = false
  ∧ trace r = [Console log; ClearInterval 3%positive; ClearTimeout 4%positive;
               RecorderStop; TrackStop 0%nat].
Proof. by vm_compute. Qed.

(** ** Finalizing a recording *)

(** A status request sends nothing, sets no timer, reports no error and
    starts no capture. *)
Lemma setStatus_quiet c s :
  sent (trace (setStatus s c)) = []
  ∧ timeouts_set (trace (setStatus s c)) = []
  ∧ error_events (trace (setStatus s c)) = []
  ∧ Forall (λ e, is_capture_action e = false) (trace (setStatus s c)).
Proof.
  rewrite setStatus_run. cbn [trace].
  destruct (decide (_status c = s)); split_and!; try done; repeat constructor.
Qed.

(** C1, as the code has it.  With voice detected, more than 2000 bytes
    assembled and at least 400 ms since the recorded start, the status
    becomes THINKING and no restart is scheduled; one [audio_input] message
    with the assembled bytes, the mime type and the mode goes out when the
    client holds a socket, and none when it holds none.  In every other
    case the status becomes IDLE, nothing is sent, and [startListening] is
    scheduled once, 500 ms later. *)
Theorem handleRecordingStop_spec (c : LogosClient) (now : Z) :
  let mimeType := or_else (rec_mimeType <$> mediaRecorder c) "audio/webm" in
  let audio := concat (map blob_bytes (audioChunks c)) in
  let r := handleRecordingStop now c in
  if voiceDetected c && (2000 <? Z.of_nat (length audio))
       && (400 <=? now - recordingStartTime c) then
    _status (after r) = THINKING
    ∧ sent (trace r)
      = (if socket c is Some _ then [audio_input audio mimeType (mode c)] else [])
    ∧ timeouts_set (trace r) = []
  else
    _status (after r) = IDLE
    ∧ sent (trace r) = []
    ∧ timeouts_set (trace r) = [(restart_listening, 500)].
Proof.
  cbn zeta. unfold handleRecordingStop, blob_size, new_Blob, MIN_SPEECH_DURATION.
  exec. cbn [blob_bytes].
  destruct (voiceDetected c && _ && _); exec.
  - unfold handleRecordingStop_send, socket_emit. exec.
    rewrite setStatus_run. cbn [after trace socket set_status mode blob_bytes].
    destruct (socket c), (decide (_status c = THINKING)); done.
  - rewrite setStatus_run. cbn [after trace].
    destruct (decide (_status c = IDLE)); done.
Qed.

(** C1 fails as stated: after [disconnect()] the recorder's [stop] event
    still runs [handleRecordingStop]; voice was detected, 3000 bytes are
    assembled and 600 ms have passed, yet nothing is sent. *)
Lemma handleRecordingStop_without_socket_sends_nothing :
  socket hung_up_client = None
  ∧ voiceDetected hung_up_client = true
  ∧ blob_size (new_Blob (audioChunks hung_up_client) "audio/webm") = 3000
  ∧ 1600 - recordingStartTime hung_up_client = 600
  ∧ sent (trace (handleRecordingStop 1600 hung_up_client)) = [].
Proof. by vm_compute. Qed.

(** The two utterances of the specification's test list: 3000 bytes with
    voice detected, finalized 500 ms and 300 ms after the start of speech
    on a connected client. *)
Example utterance_500ms_is_sent :
  let r := (stopListening ;; ondataavailable utterance ;; handleRecordingStop 1500)
             listening_client in
  _status (after r) = THINKING
  ∧ sent (trace r) = [audio_input (repeat 1 3000) "audio/webm" child]
  ∧ timeouts_set (trace r) = [].
Proof. by vm_compute. Qed.

Example utterance_300ms_is_dropped :
  let r := (stopListening ;; ondataavailable utterance ;; handleRecordingStop 1300)
             listening_client in
  _status (after r) = IDLE
  ∧ sent (trace r) = []
  ∧ timeouts_set (trace r) = [(restart_listening, 500)].
Proof. by vm_compute. Qed.

(** ** Starting capture *)

(** C9. When [startListening] runs on a connected client that is not
    LISTENING and the microphone is refused, it emits one error event and
    leaves the status IDLE; nothing else changes: no recorder is started,
    no interval or timer is set, nothing is sent, and every field but the
    status is what it was. *)
Theorem startListening_mic_denied (c : LogosClient) (browser : Browser) :
  isConnected c = true →
  _status c ≠ LISTENING →
  getUserMedia browser = None →
  let r := startListening browser c in
  _status (after r) = IDLE
  ∧ error_events (trace r) = ["Microphone access denied"]
  ∧ Forall (λ e, is_capture_action e = false) (trace r)
  ∧ sent (trace r) = []
  ∧ after r = set_status IDLE c.
Proof.
  intros Hconn Hst Hmic. cbn zeta. unfold startListening. exec.
  rewrite Hconn. cbn [negb]. rewrite decide_False by done. exec.
  rewrite Hmic. exec. rewrite emit_run. exec.
  destruct (setStatus_quiet c IDLE) as (Hsent & _ & Herr & Hcap).
  rewrite setStatus_run in *. cbn [after trace] in *.
  split_and!; try done.
  - change (error_events (?a :: ?b :: ?c :: ?l)) with
      ("Microphone access denied" :: error_events l). by rewrite Herr.
  - by repeat constructor.
Qed.

Lemma startListening_mic_denied_witness :
  let r := startListening denying_browser idle_client in
  _status (after r) = IDLE
  ∧ error_events (trace r) = ["Microphone access denied"]
  ∧ Forall (λ e, is_capture_action e = false) (trace r)
  ∧ sent (trace r) = []
  ∧ after r = set_status IDLE idle_client.
Proof.
  apply (startListening_mic_denied idle_client denying_browser).
  - vm_compute. reflexivity.
  - vm_compute. discriminate.
  - reflexivity.
Defined.

(** ** Subscribers *)

Lemma forEach_cons {A} (f : A → Proc unit) x l c :
  forEach f (x :: l) c = (f x ;; forEach f l) c.
Proof. reflexivity. Qed.

Lemma on_run name h c :
  on name h c =
  Done tt (set_eventHandlers (<[name := subscribers c name ++ [h]]> (eventHandlers c)) c) [].
Proof. reflexivity. Qed.

Lemma subscribers_on name h c n :
  subscribers (after (on name h c)) n
  = if decide (n = name) then subscribers c name ++ [h] else subscribers c n.
Proof.
  rewrite on_run. unfold subscribers. cbn [after eventHandlers set_eventHandlers].
  rewrite lookup_insert. destruct (decide (name = n)) as [->|Hne].
  - by rewrite decide_True.
  - by rewrite decide_False by congruence.
Qed.

Lemma on_each_run name hs : ∀ c,
  ∃ c', on_each name hs c = Done tt c' []
    ∧ subscribers c' name = subscribers c name ++ hs
    ∧ (∀ n, n ≠ name → subscribers c' n = subscribers c n)
    ∧ capture_fields c' = capture_fields c
    ∧ _status c' = _status c ∧ socket c' = socket c.
Proof.
  induction hs as [|h hs IH]; intros c.
  - exists c. by rewrite app_nil_r.
  - destruct (IH (after (on name h c))) as (c' & Hrun & Hsub & Hother & Hcap & Hst & Hso).
    exists c'. unfold on_each in *. rewrite forEach_cons.
    unfold mbind, Proc_bind. rewrite on_run in *. cbn [after] in *. rewrite Hrun.
    split_and!; try done.
    + rewrite Hsub. pose proof (subscribers_on name h c name) as Hon.
      rewrite on_run, decide_True in Hon by done. cbn [after] in Hon.
      by rewrite Hon, <-app_assoc.
    + intros n Hn. rewrite Hother by done.
      pose proof (subscribers_on name h c n) as Hon.
      by rewrite on_run, decide_False in Hon by done.
Qed.

(** X1. Handlers are called in the order they were registered: after
    registering [hs] for an event, [emit] calls the handlers that were
    there before, then [hs] in order; registering alone calls nothing and
    leaves status and socket as they were. *)
Theorem emit_calls_in_registration_order
    (c : LogosClient) (ev : Event) (hs : list Handler) :
  let r := on_each (event_name ev) hs c in
  trace r = []
  ∧ trace (emit ev (after r)) = [Emit ev (subscribers c (event_name ev) ++ hs)]
  ∧ _status (after r) = _status c
  ∧ socket (after r) = socket c.
Proof.
  cbn zeta.
  destruct (on_each_run (event_name ev) hs c) as (c' & -> & Hsub & _ & _ & Hst & Hso).
  cbn [after trace]. by rewrite emit_run, Hsub.
Qed.

Lemma splice_first_middle h l1 l2 :
  h ∉ l1 → splice_first h (l1 ++ h :: l2) = l1 ++ l2.
Proof.
  induction l1 as [|x l1 IH]; intros Hnin; cbn [splice_first app].
  - by rewrite decide_True.
  - apply not_elem_of_cons in Hnin as [Hne Hnin].
    rewrite decide_False by congruence. by rewrite IH.
Qed.

Lemma splice_first_absent h l : h ∉ l → splice_first h l = l.
Proof.
  induction l as [|x l IH]; intros Hnin; [done|]. cbn [splice_first].
  apply not_elem_of_cons in Hnin as [Hne Hnin].
  rewrite decide_False by congruence. by rewrite IH.
Qed.

Lemma subscribers_off name h c n :
  subscribers (after (off name h c)) n
  = if decide (n = name) then splice_first h (subscribers c name) else subscribers c n.
Proof.
  unfold off, subscribers. exec.
  destruct (eventHandlers c !! name) as [l|] eqn:Hl; exec;
    cbn [after eventHandlers set_eventHandlers from_option].
  - rewrite lookup_insert. destruct (decide (name = n)) as [->|Hne].
    + by rewrite decide_True.
    + by rewrite decide_False by congruence.
  - destruct (decide (n = name)) as [->|]; [by rewrite Hl|done].
Qed.

(** X2. [off] takes out one registration of the handler, the oldest, and
    keeps the others in their order; a handler registered twice is still
    called after one [off]. *)
Theorem off_removes_first_registration
    (c : LogosClient) (name : string) (h : Handler) (l1 l2 : list Handler) :
  subscribers c name = l1 ++ h :: l2 →
  h ∉ l1 →
  subscribers (after (off name h c)) name = l1 ++ l2
  ∧ trace (off name h c) = [].
Proof.
  intros Hsub Hnin. rewrite subscribers_off, decide_True, Hsub by done.
  split; [by apply splice_first_middle|].
  unfold off. exec. by destruct (eventHandlers c !! name).
Qed.

Lemma off_removes_first_registration_witness :
  subscribers (after (off "status" 7%nat (after (on "status" 7%nat idle_client)))) "status"
  = [] ++ [7%nat]
  ∧ trace (off "status" 7%nat (after (on "status" 7%nat idle_client))) = [].
Proof.
  apply (off_removes_first_registration _ "status" 7%nat [] [7%nat]).
  - vm_compute. reflexivity.
  - vm_compute. intros H. inversion H.
Defined.

(** X3. [off] for a handler that is not registered under the name changes
    no subscriber list; and [on] followed by [off] of a handler that was
    not registered before gives back every subscriber list. *)
Theorem on_off_round_trip (c : LogosClient) (name : string) (h : Handler) (n : string) :
  h ∉ subscribers c name →
  subscribers (after (off name h c)) n = subscribers c n
  ∧ subscribers (after ((on name h ;; off name h) c)) n = subscribers c n.
Proof.
  intros Hnin. split.
  - rewrite subscribers_off. destruct (decide (n = name)) as [->|]; [|done].
    by apply splice_first_absent.
  - rewrite bind_after, subscribers_off.
    destruct (decide (n = name)) as [->|Hne].
    + rewrite subscribers_on, decide_True by done.
      rewrite (splice_first_middle h _ []) by done. by rewrite app_nil_r.
    + by rewrite subscribers_on, decide_False.
Qed.

Lemma on_off_round_trip_witness :
  subscribers (after (off "status" 9%nat idle_client)) "status"
  = subscribers idle_client "status"
  ∧ subscribers (after ((on "status" 9%nat ;; off "status" 9%nat) idle_client)) "status"
    = subscribers idle_client "status".
Proof.
  apply (on_off_round_trip idle_client "status" 9%nat "status").
  vm_compute. intros H. inversion H as [|? ? ? H']. inversion H'.
Defined.

(** ** Settings, text and the socket listeners *)

Lemma updateSettings_run settings c :
  updateSettings settings c =
  Done tt
    (set_vadConfig
       {| sensitivity := default (sensitivity (vadConfig c)) (sd_vadSensitivity settings);
          autoCalibrate :=
            default (autoCalibrate (vadConfig c)) (sd_vadAutoCalibrate settings);
          timeout := default (timeout (vadConfig c)) (sd_vadTimeout settings) |}
       (set_mode (default (mode c) (sd_mode settings)) c))
    [].
Proof.
  destruct c as [? ? ? ? ? [? ? ?] ? ? ? ? ? ? ? ? ? ? ? ? ? ? ?].
  by destruct settings as [[m|] [s|] [a|] [t|]].
Qed.

Lemma sendText_run text c :
  sendText text c =
  Done tt c (if isConnected c then [SocketEmit (text_input text (mode c))]
             else [Console warn]).
Proof.
  unfold sendText, socket_emit, isConnected. exec.
  destruct c as [? ? ? ? ? ? ? ? ? [[[]]|] ? ? ? ? ? ? ? ? ? ? ?]; reflexivity.
Qed.

(** X4. [sendText] on a connected client sends one [text_input] with the
    text and the mode in force, which is the mode of the last settings
    update that carried one; on a client that is not connected it sends
    nothing.  In neither case does it change a field. *)
Theorem sendText_uses_current_mode
    (c : LogosClient) (settings : SettingsEventData) (text : string) :
  let c' := after (updateSettings settings c) in
  let r := sendText text c' in
  after r = c'
  ∧ sent (trace r)
    = (if isConnected c then [text_input text (default (mode c) (sd_mode settings))]
       else []).
Proof.
  cbn zeta. rewrite updateSettings_run, sendText_run. cbn [after trace].
  split; [done|]. unfold isConnected. cbn [socket set_vadConfig set_mode mode].
  by destruct (socket c) as [[[]]|].
Qed.

(** X5. Settings updates compose: an update that carries nothing changes
    nothing, an update applied twice is the update applied once, and two
    updates in a row are one update in which the later one's fields win. *)
Theorem updateSettings_composes (c : LogosClient) (earlier later : SettingsEventData) :
  updateSettings no_settings c = Done tt c []
  ∧ (updateSettings later ;; updateSettings later) c = updateSettings later c
  ∧ (updateSettings earlier ;; updateSettings later) c
    = updateSettings (settings_over later earlier) c.
Proof.
  split_and!.
  - rewrite updateSettings_run. by destruct c as [? ? ? ? ? [? ? ?] ? ? ? ? ? ? ? ? ? ? ? ? ? ? ?].
  - unfold mbind, Proc_bind. rewrite !updateSettings_run.
    by destruct later as [[m|] [s|] [a|] [t|]].
  - unfold mbind, Proc_bind. rewrite !updateSettings_run.
    by destruct earlier as [[m|] [s|] [a|] [t|]], later as [[m'|] [s'|] [a'|] [t'|]].
Qed.

(** X6. A [set_settings] message is applied like [updateSettings] and then
    announced by one settings event that carries the payload as received;
    the thresholds of the next tick are those of the new configuration. *)
Theorem set_settings_applies_then_announces (c : LogosClient) (data : SettingsEventData) :
  let r := socket_listener (in_set_settings data) c in
  after r = after (updateSettings data c)
  ∧ trace r = [Emit (EvSettings data) (subscribers c "settings")]
  ∧ _status (after r) = _status c
  ∧ capture_fields (after r) = capture_fields c
  ∧ getVadThresholds (after r) = getVadThresholds (after (updateSettings data c)).
Proof.
  cbn zeta. unfold socket_listener. exec.
  rewrite updateSettings_run, emit_run. cbn [after trace app]. done.
Qed.

Section KeepsCapture.

Lemma keeps_bind {A B} (m : Proc A) (k : A → Proc B) :
  keeps_capture m → (∀ a, keeps_capture (k a)) → keeps_capture (m ≫= k).
Proof.
  intros Hm Hk c. rewrite bind_after, bind_trace.
  destruct (Hm c) as (Hc1 & Hs1 & He1 & Ht1).
  destruct (Hk (value (m c)) (after (m c))) as (Hc2 & Hs2 & He2 & Ht2).
  split_and!; [congruence..|]. by apply Forall_app.
Qed.

Lemma keeps_this : keeps_capture this.
Proof. intros c. cbn. split_and!; done. Qed.

Lemma keeps_skip : keeps_capture skip.
Proof. intros c. cbn. split_and!; done. Qed.

Lemma keeps_perform e : touches_capture e = false → keeps_capture (perform e).
Proof. intros He c. cbn. split_and!; try done. by repeat constructor. Qed.

Lemma keeps_emit ev : keeps_capture (emit ev).
Proof. intros c. rewrite emit_run. cbn. split_and!; try done. by repeat constructor. Qed.

Lemma keeps_setStatus s : keeps_capture (setStatus s).
Proof.
  intros c. rewrite setStatus_run. cbn [after trace]. split_and!; try done.
  destruct (decide (_status c = s)); by repeat constructor.
Qed.

Lemma keeps_updateSettings settings : keeps_capture (updateSettings settings).
Proof. intros c. rewrite updateSettings_run. cbn [after trace]. split_and!; done. Qed.

Lemma keeps_socket_emit msg : keeps_capture (socket_emit msg).
Proof.
  intros c. unfold socket_emit. exec.
  destruct (socket c) eqn:Hs; exec; split_and!; try done.
  by apply Forall_singleton.
Qed.

Lemma keeps_socket_listener msg : keeps_capture (socket_listener msg).
Proof.
  destruct msg; unfold socket_listener; repeat case_decide;
    repeat (first
      [ apply keeps_this | apply keeps_skip | apply keeps_emit
      | apply keeps_setStatus | apply keeps_updateSettings
      | apply keeps_socket_emit | by apply keeps_perform
      | apply keeps_bind; [|intros ?] ]).
Qed.

End KeepsCapture.

(** X7. No message from the socket touches capture: whatever arrives, a
    disconnect or an authentication error included, the recorder, the
    stream, the sampling interval, the silence timer and the collected
    chunks are what they were, and no timer, recorder, track or microphone
    call is made. *)
Theorem socket_messages_leave_capture (c : LogosClient) (msg : Inbound) :
  let r := socket_listener msg c in
  capture_fields (after r) = capture_fields c
  ∧ socket (after r) = socket c
  ∧ eventHandlers (after r) = eventHandlers c
  ∧ Forall (λ e, touches_capture e = false) (trace r).
Proof. apply keeps_socket_listener. Qed.

(** ** The connection coming and going *)

(** X8. When the channel comes up, the handshake with the role and the
    device identifier is the first thing the client does after logging,
    before any subscriber is called; then the status becomes IDLE, with a
    status event if it is new, and [connected] is emitted last. *)
Theorem channel_up_handshake_first (c : LogosClient) :
  let r := socket_listener in_connect c in
  _status (after r) = IDLE
  ∧ trace r =
      [Console log]
      ++ (if socket c is Some _ then [SocketEmit (handshake (role c) (deviceId c))] else [])
      ++ (if decide (_status c = IDLE) then []
          else [Emit (EvStatus IDLE) (subscribers c "status")])
      ++ [Emit EvConnected (subscribers c "connected")].
Proof.
  cbn zeta. unfold socket_listener, socket_emit. exec.
  destruct (socket c); exec; by rewrite setStatus_run, emit_run.
Qed.

(** X9. Losing the channel and failing to connect both leave the status
    DISCONNECTED, whatever it was.  A lost channel emits [disconnected]
    once, after the status event, and no error; a connection error emits
    one error event with the error's message. *)
Theorem channel_down_disconnects (c : LogosClient) (message : string) :
  let lost := socket_listener in_disconnect c in
  let failed := socket_listener (in_connect_error message) c in
  _status (after lost) = DISCONNECTED
  ∧ _status (after failed) = DISCONNECTED
  ∧ trace lost =
      [Console log]
      ++ (if decide (_status c = DISCONNECTED) then []
          else [Emit (EvStatus DISCONNECTED) (subscribers c "status")])
      ++ [Emit EvDisconnected (subscribers c "disconnected")]
  ∧ error_events (trace lost) = []
  ∧ error_events (trace failed) = [message].
Proof.
  cbn zeta. unfold socket_listener. exec. rewrite !setStatus_run, !emit_run.
  cbn [value after trace app]. by destruct (decide (_status c = DISCONNECTED)).
Qed.

Lemma disconnect_run c :
  disconnect c =
  Done tt
    (set_status DISCONNECTED (set_socket None (after (stopListening c))))
    (trace (stopListening c)
     ++ (if socket c is Some _ then [SocketDisconnect] else [])
     ++ (if decide (_status c = DISCONNECTED) then []
         else [Emit (EvStatus DISCONNECTED) (subscribers c "status")])).
Proof.
  unfold disconnect. exec. rewrite stopListening_run. cbn [value after trace].
  cbn [socket set_mediaStream set_mediaRecorder set_silenceTimeout set_vadIntervalId].
  destruct (socket c); exec; rewrite setStatus_run; cbn [value after trace];
    by rewrite ?app_nil_r.
Qed.


(** X11. After [disconnect()], [startListening] and [sendText] only warn:
    the microphone is not asked for, nothing is sent, no field changes. *)
Theorem after_disconnect_only_warnings
    (c : LogosClient) (browser : Browser) (text : string) :
  let d := after (disconnect c) in
  startListening browser d = Done tt d [Console warn]
  ∧ sendText text d = Done tt d [Console warn].
Proof.
  cbn zeta. rewrite sendText_run, disconnect_run. cbn [after].
  unfold startListening. exec. done.
Qed.

(** ** A granted microphone *)

Lemma omap_all_None {A B} (f : A → option B) l :
  Forall (λ x, f x = None) l → omap f l = [].
Proof. induction 1 as [|x l Hx _ IH]; [done|]. cbn. by rewrite Hx, IH. Qed.

(** What a granted [startListening] leaves and does. *)
Lemma startListening_granted_run c browser stream :
  isConnected c = true → _status c ≠ LISTENING →
  getUserMedia browser = Some stream →
  ∃ c' resumed,
    startListening browser c =
      Done tt c'
        (GetUserMedia :: resumed
         ++ [RecorderStart; Emit (EvStatus LISTENING) (subscribers c "status");
             SetInterval vad_tick 100])
    ∧ (resumed = [] ∨ resumed = [ContextResume])
    ∧ session_fields c' = session_fields (set_status LISTENING c)
    ∧ mediaRecorder c'
      = Some {| rec_state := recording;
                rec_mimeType := getSupportedMimeType (isTypeSupported browser) |}
    ∧ audioChunks c' = []
    ∧ analyser c' = Some {| fftSize := 256 |}
    ∧ mediaStream c' = Some stream
    ∧ silenceTimeout c' = silenceTimeout c
    ∧ voiceDetected c' = false
    ∧ recordingStartTime c' = 0
    ∧ vadIntervalId c' = Some (intervalHandle browser)
    ∧ (∃ ctx, audioContext c' = Some ctx ∧ ctx_state ctx ≠ suspended).
Proof.
  intros Hconn Hst Hmic. unfold startListening. exec.
  rewrite Hconn. cbn [negb]. rewrite decide_False by done. exec. rewrite Hmic. exec.
  destruct c as [? ? ? ? ? ? ? ? st ? ? ? ? [[ctx]|] ? ? ? ? ? ? ?];
    cbn [_status audioContext set_mediaStream set_audioContext] in *; exec;
    cbn [audioContext set_mediaStream set_audioContext fmap option_fmap option_map ctx_state].
  - destruct ctx; [rewrite decide_True by done|rewrite decide_False by done..]; exec;
      rewrite setStatus_run; cbn [_status set_mediaRecorder set_audioChunks
        set_recordingStartTime set_voiceDetected set_analyser set_audioContext
        set_mediaStream]; rewrite decide_False by done; exec;
      [eexists; exists [ContextResume] | eexists; exists [] ..];
      (split; [reflexivity|]); split_and!; try done; eauto.
  - destruct (newContextState browser) eqn:Hnew;
      [rewrite decide_True by done|rewrite decide_False by done..]; exec;
      rewrite setStatus_run; cbn [_status set_mediaRecorder set_audioChunks
        set_recordingStartTime set_voiceDetected set_analyser set_audioContext
        set_mediaStream]; rewrite decide_False by done; exec;
      [eexists; exists [ContextResume] | eexists; exists [] ..];
      (split; [reflexivity|]); split_and!; try done; eauto.
Qed.

(** X12. When the microphone is granted to a connected client that is not
    LISTENING, [startListening] leaves it LISTENING with the recorder
    running, the stream held, the sampling interval of 100 ms scheduled,
    the voice flag and start time reset and no chunk collected; it emits
    one status event, sends nothing, and does not touch a silence timer
    left pending. *)
Theorem startListening_granted (c : LogosClient) (browser : Browser) (stream : MediaStream) :
  isConnected c = true → _status c ≠ LISTENING →
  getUserMedia browser = Some stream →
  let r := startListening browser c in
  _status (after r) = LISTENING
  ∧ is_recording (after r) = true
  ∧ mediaStream (after r) = Some stream
  ∧ vadIntervalId (after r) = Some (intervalHandle browser)
  ∧ voiceDetected (after r) = false
  ∧ recordingStartTime (after r) = 0
  ∧ audioChunks (after r) = []
  ∧ silenceTimeout (after r) = silenceTimeout c
  ∧ status_events (trace r) = [LISTENING]
  ∧ sent (trace r) = []
  ∧ acquisitions (trace r) = [GetUserMedia; RecorderStart; SetInterval vad_tick 100].
Proof.
  intros Hconn Hst Hmic. cbn zeta.
  destruct (startListening_granted_run c browser stream Hconn Hst Hmic)
    as (c' & resumed & -> & Hres & Hsess & Hrec & Hchunks & _ & Hstream & Htimer
        & Hvoice & Hstart & Hint & _).
  cbn [after trace]. unfold is_recording. rewrite Hrec.
  injection Hsess as _ _ _ _ _ _ _ _ Hstatus _ _ _.
  split_and!; try done; by destruct Hres as [-> | ->].
Qed.

Lemma startListening_granted_witness :
  let r := startListening sample_browser idle_client in
  _status (after r) = LISTENING
  ∧ is_recording (after r) = true
  ∧ mediaStream (after r) = Some {| getTracks := [0%nat] |}
  ∧ vadIntervalId (after r) = Some (intervalHandle sample_browser)
  ∧ voiceDetected (after r) = false
  ∧ recordingStartTime (after r) = 0
  ∧ audioChunks (after r) = []
  ∧ silenceTimeout (after r) = silenceTimeout idle_client
  ∧ status_events (trace r) = [LISTENING]
  ∧ sent (trace r) = []
  ∧ acquisitions (trace r) = [GetUserMedia; RecorderStart; SetInterval vad_tick 100].
Proof.
  apply (startListening_granted idle_client sample_browser {| getTracks := [0%nat] |}).
  - vm_compute. reflexivity.
  - vm_compute. discriminate.
  - reflexivity.
Defined.

(** X13. [startListening] while already listening: after a granted start,
    a second [startListening] only warns, whatever the browser would
    answer; the microphone is not asked for again and no second recorder
    or interval is started. *)
Theorem startListening_twice_starts_once
    (c : LogosClient) (browser again : Browser) (stream : MediaStream) :
  isConnected c = true → _status c ≠ LISTENING →
  getUserMedia browser = Some stream →
  let c1 := after (startListening browser c) in
  startListening again c1 = Done tt c1 [Console warn].
Proof.
  intros Hconn Hst Hmic. cbn zeta.
  destruct (startListening_granted_run c browser stream Hconn Hst Hmic)
    as (c' & resumed & -> & _ & Hsess & _).
  cbn [after]. injection Hsess as _ _ _ _ _ _ _ _ Hstatus Hsocket _ _.
  unfold startListening. exec.
  unfold isConnected in *. rewrite Hsocket. cbn [socket set_status].
  rewrite Hconn. cbn [negb]. rewrite decide_True by done. done.
Qed.

Lemma startListening_twice_starts_once_witness :
  let c1 := after (startListening sample_browser idle_client) in
  startListening denying_browser c1 = Done tt c1 [Console warn].
Proof.
  apply (startListening_twice_starts_once idle_client sample_browser denying_browser
           {| getTracks := [0%nat] |}).
  - vm_compute. reflexivity.
  - vm_compute. discriminate.
  - reflexivity.
Defined.

(** X14. [stopListening] right after a granted start gives back what the
    start took: it clears the interval the start set, stops the recorder
    and stops every track of the stream, in this order.  The status is
    still LISTENING afterwards: it only changes when the recorder's stop
    event is handled. *)
Theorem stop_after_start_gives_back
    (c : LogosClient) (browser : Browser) (stream : MediaStream) :
  isConnected c = true → _status c ≠ LISTENING →
  getUserMedia browser = Some stream →
  silenceTimeout c = None →
  let r := stopListening (after (startListening browser c)) in
  trace r = ClearInterval (intervalHandle browser) :: RecorderStop
            :: (TrackStop <$> getTracks stream)
  ∧ _status (after r) = LISTENING
  ∧ vadIntervalId (after r) = None
  ∧ mediaStream (after r) = None
  ∧ is_recording (after r) = false.
Proof.
  intros Hconn Hst Hmic Hnone. cbn zeta.
  destruct (startListening_granted_run c browser stream Hconn Hst Hmic)
    as (c' & resumed & -> & _ & Hsess & Hrec & _ & _ & Hstream & Htimer & _ & _ & Hint & _).
  cbn [after]. pose proof (stopListening_not_recording c') as Hstopped.
  rewrite stopListening_run in *. cbn [after trace] in *.
  injection Hsess as _ _ _ _ _ _ _ _ Hstatus _ _ _.
  split_and!; try done.
  unfold pending_schedules, held_audio, is_recording.
  by rewrite Hint, Htimer, Hnone, Hrec, Hstream.
Qed.

Lemma stop_after_start_gives_back_witness :
  let r := stopListening (after (startListening sample_browser idle_client)) in
  trace r = ClearInterval (intervalHandle sample_browser) :: RecorderStop
            :: (TrackStop <$> getTracks {| getTracks := [0%nat] |})
  ∧ _status (after r) = LISTENING
  ∧ vadIntervalId (after r) = None
  ∧ mediaStream (after r) = None
  ∧ is_recording (after r) = false.
Proof.
  apply (stop_after_start_gives_back idle_client sample_browser {| getTracks := [0%nat] |}).
  - vm_compute. reflexivity.
  - vm_compute. discriminate.
  - reflexivity.
  - vm_compute. reflexivity.
Defined.

(** X15. [stopListening] only lets go of capture: it changes neither the
    status nor the socket, settings or subscribers, emits no event and
    sends nothing; it also keeps the voice flag, the start time and the
    chunks, which the handler of the recorder's stop event reads later. *)
Theorem stopListening_keeps_session (c : LogosClient) :
  let r := stopListening c in
  session_fields (after r) = session_fields c
  ∧ voiceDetected (after r) = voiceDetected c
  ∧ recordingStartTime (after r) = recordingStartTime c
  ∧ audioChunks (after r) = audioChunks c
  ∧ status_events (trace r) = []
  ∧ error_events (trace r) = []
  ∧ sent (trace r) = [].
Proof.
  cbn zeta. rewrite stopListening_run. cbn [after trace].
  pose proof (pending_schedules_cancel c) as Hcancel.
  pose proof (held_audio_release c) as Hrelease.
  assert (Forall (λ e, is_cancel e = true ∨ is_release e = true)
            (pending_schedules c ++ held_audio c)) as Hall.
  { apply Forall_app. split; eapply Forall_impl; eauto. }
  split_and!; try done; apply omap_all_None;
    (eapply Forall_impl; [exact Hall|]); by intros [] [?|?].
Qed.

(** ** Sampling *)

Lemma outstanding_app l1 l2 : outstanding (l1 ++ l2) = outstanding l1 + outstanding l2.
Proof.
  unfold outstanding. induction l1 as [|e l1 IH]; [done|].
  destruct e as [| | | | | |[] ?| | | | | | | |]; cbn [app foldr]; lia.
Qed.

Lemma sampling_step_refl c : sampling_step c c [].
Proof. unfold sampling_step. split_and!; try done. cbn. lia. Qed.

Lemma sampling_step_trans c c1 c2 l1 l2 :
  sampling_step c c1 l1 → sampling_step c1 c2 l2 → sampling_step c c2 (l1 ++ l2).
Proof.
  intros (Hs1 & Hf1 & Ho1 & Hv1 & Ht1) (Hs2 & Hf2 & Ho2 & Hv2 & Ht2).
  unfold sampling_step. split_and!; [congruence..| | |].
  - rewrite outstanding_app. lia.
  - intros Hv. destruct (Hv1 Hv) as [Hv' Hstart]. destruct (Hv2 Hv'). split; congruence.
  - by apply Forall_app.
Qed.

Lemma detectVoiceActivity_step dataArray now timer c :
  ∃ c' l, detectVoiceActivity dataArray now timer c = Done tt c' l
    ∧ sampling_step c c' l.
Proof.
  unfold detectVoiceActivity. exec.
  destruct c as [? ? ? ? ? ? ? ? ? ? ? ? ? ? [a|] ? [h|] [] ? ? ?];
    cbn [analyser voiceDetected silenceTimeout]; exec;
    try (eexists _, _; split; [reflexivity|apply sampling_step_refl]);
    destruct (average_gt _ _), (average_lt _ _); cbn;
    (eexists _, _; split; [reflexivity|]);
    unfold sampling_step; cbn; split_and!; try done; repeat constructor.
Qed.

Lemma this_bind {A} (k : LogosClient → Proc A) c : (this ≫= k) c = k c c.
Proof. unfold mbind, Proc_bind, this. by destruct (k c c). Qed.

Lemma vadInterval_tick_step dataArray now timer c :
  ∃ c' l, vadInterval_tick dataArray now timer c = Done tt c' l
    ∧ sampling_step c c' l.
Proof.
  unfold vadInterval_tick. rewrite this_bind. destruct (is_recording c).
  - apply detectVoiceActivity_step.
  - exists c, []. split; [done|apply sampling_step_refl].
Qed.

Lemma vadInterval_ticks_step ticks : ∀ c,
  ∃ c' l, vadInterval_ticks ticks c = Done tt c' l ∧ sampling_step c c' l.
Proof.
  induction ticks as [|[[d n] t] ticks IH]; intros c.
  - exists c, []. split; [done|apply sampling_step_refl].
  - destruct (vadInterval_tick_step d n t c) as (c1 & l1 & Hrun1 & Hstep1).
    destruct (IH c1) as (c2 & l2 & Hrun2 & Hstep2).
    exists c2, (l1 ++ l2). split; [|by eapply sampling_step_trans].
    unfold vadInterval_ticks in *. rewrite forEach_cons.
    unfold mbind, Proc_bind. cbn [fst snd]. by rewrite Hrun1, Hrun2.
Qed.

Lemma thresholds_gap c :
  voiceThreshold (getVadThresholds c) = silenceThreshold (getVadThresholds c) + 5.
Proof.
  unfold getVadThresholds. destruct (autoCalibrate (vadConfig c)); cbn; lia.
Qed.

(** The bytes of one tick are never above the voice threshold and below
    the silence threshold at once. *)
Lemma loud_not_quiet c dataArray :
  average_gt dataArray (voiceThreshold (getVadThresholds c)) = true →
  average_lt dataArray (silenceThreshold (getVadThresholds c)) = false.
Proof.
  rewrite thresholds_gap. unfold average_gt, average_lt.
  set (n := Z.of_nat (length dataArray)). set (sum := foldl Z.add 0 dataArray).
  set (st := silenceThreshold (getVadThresholds c)).
  intros [Hn Hgt]%andb_prop. apply Z.ltb_lt in Hn, Hgt.
  apply andb_false_intro2, Z.ltb_ge. nia.
Qed.

(** X16. Between the thresholds nothing happens: a tick whose average is
    neither above the voice threshold nor below the silence threshold
    changes no field, sets and cancels no timer, and logs nothing. *)
Theorem tick_between_thresholds_is_inert
    (c : LogosClient) (dataArray : list Z) (now : Z) (timer : Handle) :
  average_gt dataArray (voiceThreshold (getVadThresholds c)) = false →
  average_lt dataArray (silenceThreshold (getVadThresholds c)) = false →
  detectVoiceActivity dataArray now timer c = Done tt c []
  ∧ vadInterval_tick dataArray now timer c = Done tt c [].
Proof.
  intros Hloud Hquiet.
  assert (detectVoiceActivity dataArray now timer c = Done tt c []) as Hrun.
  { unfold detectVoiceActivity. rewrite this_bind.
    destruct (analyser c); [|done]. cbn zeta. rewrite Hloud, Hquiet. by exec. }
  split; [done|]. unfold vadInterval_tick. rewrite this_bind.
  by destruct (is_recording c).
Qed.

Lemma tick_between_thresholds_is_inert_witness :
  detectVoiceActivity (repeat 27 128) 1000 4%positive
    (after (startListening sample_browser idle_client))
  = Done tt (after (startListening sample_browser idle_client)) []
  ∧ vadInterval_tick (repeat 27 128) 1000 4%positive
      (after (startListening sample_browser idle_client))
    = Done tt (after (startListening sample_browser idle_client)) [].
Proof.
  apply (tick_between_thresholds_is_inert
           (after (startListening sample_browser idle_client)) (repeat 27 128)
           1000 4%positive);
    vm_compute; reflexivity.
Defined.

(** X17. Sampling never ends capture by itself: over any run of ticks the
    status, socket, settings and subscribers, the recorder, the stream,
    the interval and the chunks stay as they are; no event is emitted and
    nothing is sent, stopped or released.  Only the silence timer's
    callback goes on to [stopListening]. *)
Theorem ticks_keep_capture_running (c : LogosClient) (ticks : list Tick) :
  let r := vadInterval_ticks ticks c in
  session_fields (after r) = session_fields c
  ∧ sampled_fields (after r) = sampled_fields c
  ∧ is_recording (after r) = is_recording c
  ∧ status_events (trace r) = []
  ∧ sent (trace r) = []
  ∧ Forall (λ e, is_release e = false) (trace r).
Proof.
  cbn zeta.
  destruct (vadInterval_ticks_step ticks c) as (c' & l & -> & Hs & Hf & _ & _ & Hl).
  cbn [after trace]. split_and!; try done.
  - unfold is_recording. by injection Hf as ->.
  - apply omap_all_None. eapply Forall_impl; [exact Hl|]. by intros [].
  - apply omap_all_None. eapply Forall_impl; [exact Hl|]. by intros [].
  - eapply Forall_impl; [exact Hl|]. by intros [].
Qed.

(** X18. Never two silence timers: over any run of ticks, the timers set
    minus the timers cancelled is the change in whether a handle is stored;
    so counted from a client with no timer pending, at most one timer is
    outstanding, and exactly when the client stores a handle. *)
Theorem ticks_keep_one_timer (c : LogosClient) (ticks : list Tick) :
  let r := vadInterval_ticks ticks c in
  outstanding (trace r) = pending (after r) - pending c
  ∧ 0 ≤ pending c + outstanding (trace r) ≤ 1.
Proof.
  cbn zeta.
  destruct (vadInterval_ticks_step ticks c) as (c' & l & -> & _ & _ & Ho & _).
  cbn [after trace]. split; [done|]. rewrite Ho. unfold pending.
  destruct (silenceTimeout c), (silenceTimeout c'); lia.
Qed.

(** X19. The start of speech is the first loud tick: once voice is
    detected, no run of ticks clears the flag or moves the recorded start
    time; only the silence timer's callback and a new [startListening]
    reset them. *)
Theorem ticks_keep_speech_start (c : LogosClient) (ticks : list Tick) :
  voiceDetected c = true →
  let r := vadInterval_ticks ticks c in
  voiceDetected (after r) = true
  ∧ recordingStartTime (after r) = recordingStartTime c.
Proof.
  intros Hv. cbn zeta.
  destruct (vadInterval_ticks_step ticks c) as (c' & l & -> & _ & _ & _ & Hkeep & _).
  by apply Hkeep.
Qed.

Lemma ticks_keep_speech_start_witness :
  let r := vadInterval_ticks
             [(loud, 1200, 5%positive); (quiet, 1300, 6%positive);
              (loud, 1400, 7%positive)] listening_client in
  voiceDetected (after r) = true
  ∧ recordingStartTime (after r) = recordingStartTime listening_client.
Proof.
  apply (ticks_keep_speech_start listening_client). vm_compute. reflexivity.
Defined.

(** X20. A tick above the voice threshold marks speech and silences the
    timer: the voice flag is set; the start time is the clock of this tick
    when the flag was not set and is left alone when it was; a pending
    silence timer is cancelled, and none is set. *)
Theorem loud_tick_marks_speech
    (c : LogosClient) (a : AnalyserNode) (dataArray : list Z) (now : Z) (timer : Handle) :
  analyser c = Some a →
  average_gt dataArray (voiceThreshold (getVadThresholds c)) = true →
  let r := detectVoiceActivity dataArray now timer c in
  voiceDetected (after r) = true
  ∧ recordingStartTime (after r) = (if voiceDetected c then recordingStartTime c else now)
  ∧ silenceTimeout (after r) = None
  ∧ trace r = (if voiceDetected c then [] else [Console log])
              ++ (if silenceTimeout c is Some h then [ClearTimeout h] else []).
Proof.
  intros Ha Hloud. pose proof (loud_not_quiet c dataArray Hloud) as Hquiet.
  cbn zeta. unfold detectVoiceActivity. rewrite this_bind, Ha. cbn zeta.
  rewrite Hloud, Hquiet.
  destruct c as [? ? ? ? ? ? ? ? ? ? ? ? ? ? ? ? [h|] [] ? ? ?]; by exec.
Qed.

Lemma loud_tick_marks_speech_witness :
  let c := after (startListening sample_browser idle_client) in
  let r := detectVoiceActivity loud 1000 4%positive c in
  voiceDetected (after r) = true
  ∧ recordingStartTime (after r) = (if voiceDetected c then recordingStartTime c else 1000)
  ∧ silenceTimeout (after r) = None
  ∧ trace r = (if voiceDetected c then [] else [Console log])
              ++ (if silenceTimeout c is Some h then [ClearTimeout h] else []).
Proof.
  apply (loud_tick_marks_speech (after (startListening sample_browser idle_client))
           {| fftSize := 256 |} loud 1000 4%positive);
    vm_compute; reflexivity.
Defined.

(** X21. A tick below the silence threshold starts the silence timer only
    after speech and only once: with the voice flag set and no timer
    pending it sets one timer of the configured timeout and stores its
    handle; with a timer already pending, or with no voice detected yet, it
    changes nothing, so continued silence does not put the timer off. *)
Theorem quiet_tick_starts_timer_once
    (c : LogosClient) (a : AnalyserNode) (dataArray : list Z) (now : Z) (timer : Handle) :
  analyser c = Some a →
  average_lt dataArray (silenceThreshold (getVadThresholds c)) = true →
  let r := detectVoiceActivity dataArray now timer c in
  if voiceDetected c && bool_decide (silenceTimeout c = None) then
    after r = set_silenceTimeout (Some timer) c
    ∧ trace r = [SetTimeout silence_expired (timeout (vadConfig c))]
  else
    after r = c ∧ trace r = [].
Proof.
  intros Ha Hquiet.
  assert (average_gt dataArray (voiceThreshold (getVadThresholds c)) = false) as Hloud.
  { destruct (average_gt _ _) eqn:Hgt; [|done].
    apply loud_not_quiet in Hgt. congruence. }
  cbn zeta. unfold detectVoiceActivity. rewrite this_bind, Ha. cbn zeta.
  rewrite Hloud, Hquiet.
  destruct c as [? ? ? ? ? ? ? ? ? ? ? ? ? ? ? ? [h|] [] ? ? ?]; by exec.
Qed.

Lemma quiet_tick_starts_timer_once_witness :
  let r := detectVoiceActivity quiet 1200 9%positive listening_client in
  if voiceDetected listening_client
     && bool_decide (silenceTimeout listening_client = None) then
    after r = set_silenceTimeout (Some 9%positive) listening_client
    ∧ trace r = [SetTimeout silence_expired (timeout (vadConfig listening_client))]
  else
    after r = listening_client ∧ trace r = [].
Proof.
  apply (quiet_tick_starts_timer_once listening_client {| fftSize := 256 |} quiet 1200
           9%positive);
    vm_compute; reflexivity.
Defined.

(** X22. A tick that comes late does no harm: after [stopListening] the
    interval's callback finds the recorder not recording and does nothing,
    and so does it before any recorder exists. *)
Theorem tick_after_stop_is_inert
    (c : LogosClient) (dataArray : list Z) (now : Z) (timer : Handle) :
  let stopped_client := after (stopListening c) in
  vadInterval_tick dataArray now timer stopped_client = Done tt stopped_client []
  ∧ vadInterval_tick dataArray now timer (set_mediaRecorder None c)
    = Done tt (set_mediaRecorder None c) [].
Proof.
  cbn zeta. unfold vadInterval_tick. rewrite !this_bind.
  by rewrite stopListening_not_recording.
Qed.

(** ** Chunks and encodings *)

Lemma set_audioChunks_same c : set_audioChunks (audioChunks c) c = c.
Proof. by destruct c. Qed.

Lemma ondataavailable_each_run blobs : ∀ c,
  ondataavailable_each blobs c =
  Done tt (set_audioChunks (audioChunks c ++ filter (λ b, 0 < blob_size b) blobs) c) [].
Proof.
  induction blobs as [|b blobs IH]; intros c.
  - cbn. by rewrite app_nil_r, set_audioChunks_same.
  - unfold ondataavailable_each in *. rewrite forEach_cons.
    unfold mbind at 1, Proc_bind. unfold ondataavailable at 1. rewrite this_bind.
    rewrite filter_cons. destruct (decide (0 < blob_size b)) as [Hpos|Hzero].
    + apply Z.ltb_lt in Hpos. rewrite Hpos. exec. rewrite IH.
      cbn [audioChunks set_audioChunks]. by rewrite <-app_assoc.
    + apply Z.nlt_ge, Z.ltb_ge in Hzero. rewrite Hzero. exec. by rewrite IH.
Qed.

Lemma concat_nonempty_blobs blobs :
  concat (map blob_bytes (filter (λ b, 0 < blob_size b) blobs))
  = concat (map blob_bytes blobs).
Proof.
  induction blobs as [|b blobs IH]; [done|]. rewrite filter_cons.
  destruct (decide (0 < blob_size b)) as [Hpos|Hzero]; cbn [map concat].
  - by rewrite IH.
  - rewrite IH. unfold blob_size in Hzero.
    destruct (blob_bytes b); [done|]. cbn [length] in Hzero. lia.
Qed.

(** X23. The recorder's data is collected in arrival order and empty
    blobs are dropped: after a run of [dataavailable] events the chunk list
    is the old one followed by the non-empty blobs, and the bytes assembled
    from it are the old bytes followed by the bytes of all the blobs.
    Collecting calls nothing and changes no other field. *)
Theorem chunks_collect_in_order (c : LogosClient) (blobs : list Blob) (type : string) :
  let r := ondataavailable_each blobs c in
  audioChunks (after r) = audioChunks c ++ filter (λ b, 0 < blob_size b) blobs
  ∧ blob_bytes (new_Blob (audioChunks (after r)) type)
    = blob_bytes (new_Blob (audioChunks c) type) ++ concat (map blob_bytes blobs)
  ∧ session_fields (after r) = session_fields c
  ∧ voiceDetected (after r) = voiceDetected c
  ∧ trace r = [].
Proof.
  cbn zeta. rewrite ondataavailable_each_run. cbn [after trace]. split_and!; try done.
  unfold new_Blob. cbn [blob_bytes audioChunks set_audioChunks].
  by rewrite map_app, concat_app, concat_nonempty_blobs.
Qed.

Lemma find_first {A} (f : A → bool) l x :
  List.find f l = Some x →
  f x = true ∧ ∃ before behind, l = before ++ x :: behind
                                ∧ Forall (λ y, f y = false) before.
Proof.
  induction l as [|y l IH]; [done|]. cbn [List.find].
  destruct (f y) eqn:Hy.
  - intros [= ->]. split; [done|]. by exists [], l.
  - intros Hfind. destruct (IH Hfind) as (Hx & before & behind & -> & Hbefore).
    split; [done|]. exists (y :: before), behind. split; [done|]. by constructor.
Qed.

Lemma find_none {A} (f : A → bool) l :
  List.find f l = None → Forall (λ y, f y = false) l.
Proof.
  induction l as [|y l IH]; [by constructor|]. cbn [List.find].
  destruct (f y) eqn:Hy; [done|]. intros Hfind. constructor; auto.
Qed.

(** X24. [getSupportedMimeType] returns the first encoding of its list
    that the recorder supports: the result is supported and every encoding
    listed before it is not; when none of the five is supported the result
    is the empty string. *)
Theorem getSupportedMimeType_first_supported (isTypeSupported : string → bool) :
  let m := getSupportedMimeType isTypeSupported in
  if existsb isTypeSupported preferred_types then
    isTypeSupported m = true
    ∧ ∃ before behind, preferred_types = before ++ m :: behind
                       ∧ Forall (λ t, isTypeSupported t = false) before
  else m = EmptyString.
Proof.
  cbn zeta. unfold getSupportedMimeType. fold preferred_types.
  destruct (List.find isTypeSupported preferred_types) as [t|] eqn:Hfind.
  - destruct (find_first _ _ _ Hfind) as (Ht & before & behind & Hsplit & Hbefore).
    assert (existsb isTypeSupported preferred_types = true) as ->.
    { apply existsb_exists. exists t. split; [|done].
      rewrite Hsplit. apply in_or_app. right. by left. }
    assert (t ≠ EmptyString) as Hne.
    { assert (t ∈ preferred_types) as Hin
        by (rewrite Hsplit; apply elem_of_app; right; left).
      unfold preferred_types in Hin.
      repeat (apply elem_of_cons in Hin as [->|Hin]; [done|]).
      by apply elem_of_nil in Hin. }
    unfold or_else. rewrite decide_False by done. eauto.
  - assert (existsb isTypeSupported preferred_types = false) as ->; [|done].
    apply find_none in Hfind. apply not_true_is_false. intros Hex.
    apply existsb_exists in Hex as (t & Hin & Ht).
    rewrite Forall_forall in Hfind. apply list_elem_of_In in Hin.
    apply Hfind in Hin. congruence.
Qed.

Lemma or_else_nonempty o fallback : fallback ≠ EmptyString → or_else o fallback ≠ EmptyString.
Proof.
  intros Hne. unfold or_else. destruct o as [s|]; [|done].
  by destruct (decide (s = EmptyString)).
Qed.

(** X25. Audio never goes out without an encoding: every [audio_input]
    message [handleRecordingStop] sends has a non-empty mime type, also
    when the recorder reports none (no encoding of the list is supported)
    or there is no recorder: the type is then "audio/webm".  At most one
    message is sent. *)
Theorem audio_input_always_has_mime_type (c : LogosClient) (now : Z) :
  let r := handleRecordingStop now c in
  Forall has_mime_type (sent (trace r))
  ∧ (length (sent (trace r)) ≤ 1)%nat.
Proof.
  cbn zeta. split_and!.
  - unfold handleRecordingStop, handleRecordingStop_send, socket_emit. exec.
    destruct (_ && _); exec; rewrite setStatus_run; cbn [after trace socket set_status];
      [destruct (socket c); exec|]; case_decide; cbn; repeat constructor;
      by apply or_else_nonempty.
  - unfold handleRecordingStop, handleRecordingStop_send, socket_emit. exec.
    destruct (_ && _); exec; rewrite setStatus_run; cbn [after trace socket set_status];
      [destruct (socket c); exec|]; case_decide; cbn; lia.
Qed.

(** ** The device identifier *)

(** X26. With storage at hand the device identifier is made once: the
    identifier [generateDeviceId] returns is never empty, it is stored, and
    every later call returns the same identifier and leaves the storage as
    it is, whatever the clock and the random number are by then.  A client
    built with it has a non-empty device identifier, whatever its options
    say. *)
Theorem generateDeviceId_is_stable
    (now later : Z) (random36 random36' : string) (items : gmap string string)
    (options : LogosClientOptions) :
  let first := generateDeviceId now random36 (Some items) in
  first.1 ≠ EmptyString
  ∧ (first.2 ≫= (λ stored, stored !! "logos_device_id")) = Some first.1
  ∧ generateDeviceId later random36' first.2 = first
  ∧ deviceId (new_LogosClient options first.1) ≠ EmptyString.
Proof.
  cbn zeta. unfold generateDeviceId.
  destruct (items !! "logos_device_id") as [[|a id]|] eqn:Hstored;
    cbn [fst snd mbind option_bind]; rewrite ?lookup_insert_eq, ?Hstored;
    try (change ("logos_" +:+ ?rest) with (String "l" ("ogos_" +:+ rest));
         generalize ("ogos_" +:+ pretty now +:+ "_" +:+ String.substring 2 9 random36);
         intros id);
    (split_and!; [done|done|done|]);
    unfold new_LogosClient, or_else; cbn [deviceId];
    destruct (opt_deviceId options) as [given|]; try done; by case_decide.
Qed.

(** ** Status events are edges *)

Lemma setStatus_each_edges requests : ∀ c,
  edges (_status c) (status_events (trace (setStatus_each requests c)))
  ∧ (length (status_events (trace (setStatus_each requests c))) ≤ length requests)%nat.
Proof.
  induction requests as [|s rest IH]; intros c; [by cbn|].
  change (setStatus_each (s :: rest)) with (setStatus s ;; setStatus_each rest).
  rewrite bind_trace, status_events_app, setStatus_status_events.
  destruct (IH (after (setStatus s c))) as [Hedges Hlen].
  rewrite setStatus_after in Hedges.
  destruct (decide (s = _status c)) as [<-|Hne]; cbn [app edges length]; [|split]; try done.
  - split; [done|]. lia.
  - lia.
Qed.

(** X27. Subscribers see the status only change: over any run of status
    requests, each status event carries a status different from the one
    before it, the first one different from the status the run started
    from, and there are no more events than requests. *)
Theorem status_events_are_edges (c : LogosClient) (requests : list LogosStatus) :
  let r := setStatus_each requests c in
  edges (_status c) (status_events (trace r))
  ∧ (length (status_events (trace r)) ≤ length requests)%nat.
Proof. apply setStatus_each_edges. Qed.

(** ** Sensitivity *)

(** X28. Sensitivity only counts without calibration.  There a higher
    sensitivity never gives higher thresholds, and from 10 on the silence
    threshold stays at 5; with calibration on, which is the default, the
    thresholds do not depend on the sensitivity at all.  In both modes the
    voice threshold is 5 above the silence threshold. *)
Theorem sensitivity_lowers_thresholds
    (c : LogosClient) (low high : Z) (calibrate : bool) (ms : Z) :
  low ≤ high →
  let thresholds s a :=
    getVadThresholds
      (set_vadConfig {| sensitivity := s; autoCalibrate := a; timeout := ms |} c) in
  silenceThreshold (thresholds high false) ≤ silenceThreshold (thresholds low false)
  ∧ voiceThreshold (thresholds high false) ≤ voiceThreshold (thresholds low false)
  ∧ thresholds high true = thresholds low true
  ∧ voiceThreshold (thresholds low calibrate)
    = silenceThreshold (thresholds low calibrate) + 5
  ∧ (if 10 <=? low then silenceThreshold (thresholds low false) = 5
     else 5 < silenceThreshold (thresholds low false)).
Proof.
  intros Hle. cbn zeta. unfold getVadThresholds.
  cbn [vadConfig set_vadConfig sensitivity autoCalibrate negb
       silenceThreshold voiceThreshold calibratedNoiseFloor].
  split_and!; try lia; try done.
  - destruct calibrate; cbn; lia.
  - destruct (Z.leb_spec 10 low); lia.
Qed.

Lemma sensitivity_lowers_thresholds_witness :
  let thresholds s a :=
    getVadThresholds
      (set_vadConfig {| sensitivity := s; autoCalibrate := a; timeout := 700 |}
         fresh_client) in
  silenceThreshold (thresholds 8 false) ≤ silenceThreshold (thresholds 3 false)
  ∧ voiceThreshold (thresholds 8 false) ≤ voiceThreshold (thresholds 3 false)
  ∧ thresholds 8 true = thresholds 3 true
  ∧ voiceThreshold (thresholds 3 true) = silenceThreshold (thresholds 3 true) + 5
  ∧ (if 10 <=? 3 then silenceThreshold (thresholds 3 false) = 5
     else 5 < silenceThreshold (thresholds 3 false)).
Proof.
  apply (sensitivity_lowers_thresholds fresh_client 3 8 true 700). lia.
Defined.

(** ** One utterance, from the microphone to the socket *)

Lemma seq_run (m k : Proc unit) c c1 c2 l1 l2 :
  m c = Done tt c1 l1 → k c1 = Done tt c2 l2 → (m ;; k) c = Done tt c2 (l1 ++ l2).
Proof. intros Hm Hk. unfold mbind, Proc_bind. by rewrite Hm, Hk. Qed.

Lemma detect_loud_run c a dataArray now timer :
  analyser c = Some a →
  average_gt dataArray (voiceThreshold (getVadThresholds c)) = true →
  detectVoiceActivity dataArray now timer c =
  Done tt
    (set_silenceTimeout None
       (if voiceDetected c then c
        else set_recordingStartTime now (set_voiceDetected true c)))
    ((if voiceDetected c then [] else [Console log])
     ++ (if silenceTimeout c is Some h then [ClearTimeout h] else [])).
Proof.
  intros Ha Hloud. pose proof (loud_not_quiet c dataArray Hloud) as Hquiet.
  unfold detectVoiceActivity. rewrite this_bind, Ha. cbn zeta.
  rewrite Hloud, Hquiet.
  destruct c as [? ? ? ? ? ? ? ? ? ? ? ? ? ? ? ? [h|] [] ? ? ?]; by exec.
Qed.

Lemma detect_quiet_run c a dataArray now timer :
  analyser c = Some a →
  average_lt dataArray (silenceThreshold (getVadThresholds c)) = true →
  voiceDetected c = true → silenceTimeout c = None →
  detectVoiceActivity dataArray now timer c =
  Done tt (set_silenceTimeout (Some timer) c)
    [SetTimeout silence_expired (timeout (vadConfig c))].
Proof.
  intros Ha Hquiet Hvoice Hnone.
  assert (average_gt dataArray (voiceThreshold (getVadThresholds c)) = false) as Hloud.
  { destruct (average_gt _ _) eqn:Hgt; [|done].
    apply loud_not_quiet in Hgt. congruence. }
  unfold detectVoiceActivity. rewrite this_bind, Ha. cbn zeta.
  rewrite Hloud, Hquiet. exec. rewrite Hvoice, Hnone. by exec.
Qed.

Lemma vadInterval_tick_recording c dataArray now timer :
  is_recording c = true →
  vadInterval_tick dataArray now timer c = detectVoiceActivity dataArray now timer c.
Proof. intros Hrec. unfold vadInterval_tick. by rewrite this_bind, Hrec. Qed.

Lemma silenceTimeout_expired_run c now :
  silenceTimeout_expired now c =
  if MIN_SPEECH_DURATION <=? now - recordingStartTime c then
    Done tt (after (stopListening c)) (Console log :: trace (stopListening c))
  else
    Done tt (set_silenceTimeout None (set_voiceDetected false c)) [Console log].
Proof.
  unfold silenceTimeout_expired. rewrite this_bind. cbn zeta. exec.
  destruct (_ <=? _); exec; [|done]. by rewrite stopListening_run.
Qed.

Lemma ondataavailable_run c data :
  0 < blob_size data →
  ondataavailable data c = Done tt (set_audioChunks (audioChunks c ++ [data]) c) [].
Proof.
  intros Hpos%Z.ltb_lt. unfold ondataavailable. rewrite this_bind. by rewrite Hpos.
Qed.

Lemma handleRecordingStop_valid_run c now s :
  voiceDetected c = true →
  2000 < blob_size (new_Blob (audioChunks c) EmptyString) →
  MIN_SPEECH_DURATION ≤ now - recordingStartTime c →
  socket c = Some s →
  handleRecordingStop now c =
  Done tt (set_status THINKING c)
    (Console log
     :: (if decide (_status c = THINKING) then []
         else [Emit (EvStatus THINKING) (subscribers c "status")])
     ++ [SocketEmit
           (audio_input (concat (map blob_bytes (audioChunks c)))
              (or_else (rec_mimeType <$> mediaRecorder c) "audio/webm") (mode c))]).
Proof.
  intros Hvoice Hsize%Z.ltb_lt Hdur%Z.leb_le Hsocket.
  unfold handleRecordingStop, handleRecordingStop_send, socket_emit.
  rewrite this_bind. cbn zeta. unfold blob_size, new_Blob in *. cbn [blob_bytes] in *.
  rewrite Hvoice, Hsize, Hdur. cbn [andb]. exec. rewrite setStatus_run. exec.
  cbn [socket set_status mode]. rewrite Hsocket. by exec.
Qed.

(** Reads fields through assignments. *)
Ltac fields :=
  cbn [serverUrl apiKey deviceId role mode vadConfig autoReconnect reconnectAttempts
       _status socket calibratedNoiseFloor mediaRecorder audioChunks audioContext
       analyser mediaStream silenceTimeout voiceDetected recordingStartTime
       vadIntervalId eventHandlers
       set_mode set_vadConfig set_status set_socket set_mediaRecorder set_audioChunks
       set_audioContext set_analyser set_mediaStream set_silenceTimeout
       set_voiceDetected set_recordingStartTime set_vadIntervalId set_eventHandlers
       rec_state rec_mimeType stopped connected fmap option_fmap option_map
       value after trace app].

Lemma getVadThresholds_ext c c' :
  vadConfig c' = vadConfig c → calibratedNoiseFloor c' = calibratedNoiseFloor c →
  getVadThresholds c' = getVadThresholds c.
Proof. intros Hcfg Hfloor. unfold getVadThresholds. by rewrite Hcfg, Hfloor. Qed.

Lemma sent_app l1 l2 : sent (l1 ++ l2) = sent l1 ++ sent l2.
Proof. apply omap_app. Qed.

Lemma sent_cons e l :
  sent (e :: l) = (if e is SocketEmit m then [m] else []) ++ sent l.
Proof. by destruct e. Qed.

Lemma status_events_cons e l :
  status_events (e :: l)
  = (if e is Emit (EvStatus s) _ then [s] else []) ++ status_events l.
Proof. by destruct e as [|[]| | | | | | | | | | | | |]. Qed.

Lemma TrackStop_no_events tracks :
  status_events (TrackStop <$> tracks) = [] ∧ sent (TrackStop <$> tracks) = [].
Proof. by induction tracks. Qed.

(** X29. A whole utterance.  On a connected client that is not listening
    and has no timer pending, with the microphone granted: a loud tick, a
    quiet tick, the silence timer firing at least 400 ms after the loud
    tick, and then the recorder delivering more than 2000 bytes, end with
    the status THINKING, exactly one [audio_input] sent, carrying the
    delivered bytes and the client's mode, the status events LISTENING then
    THINKING, and the microphone given back: no interval, no timer, no
    stream, no running recorder. *)
Theorem utterance_is_sent_once
    (c : LogosClient) (browser : Browser) (stream : MediaStream)
    (loudData quietData : list Z) (t0 t1 t2 t3 : Z) (timer : Handle) (data : Blob) :
  isConnected c = true → _status c ≠ LISTENING → silenceTimeout c = None →
  getUserMedia browser = Some stream →
  average_gt loudData (voiceThreshold (getVadThresholds c)) = true →
  average_lt quietData (silenceThreshold (getVadThresholds c)) = true →
  MIN_SPEECH_DURATION ≤ t2 - t0 → t2 ≤ t3 →
  2000 < blob_size data →
  let r := capture_round browser loudData quietData t0 t1 t2 t3 timer data c in
  _status (after r) = THINKING
  ∧ sent (trace r)
    = [audio_input (blob_bytes data)
         (or_else (Some (getSupportedMimeType (isTypeSupported browser))) "audio/webm")
         (mode c)]
  ∧ status_events (trace r) = [LISTENING; THINKING]
  ∧ vadIntervalId (after r) = None
  ∧ silenceTimeout (after r) = None
  ∧ mediaStream (after r) = None
  ∧ is_recording (after r) = false
  ∧ isConnected (after r) = true.
Proof.
  intros Hconn Hst Hnone Hmic Hloud Hquiet Hdur Hlate Hsize. cbn zeta.
  destruct (startListening_granted_run c browser stream Hconn Hst Hmic)
    as (c1 & resumed & Hrun1 & Hres & Hsess & Hrec & Hchunks & Han & Hstream & Htimer
        & Hvoice & Hstart & Hint & _).
  destruct (socket c) as [s|] eqn:Hs; [|by unfold isConnected in Hconn; rewrite Hs in Hconn].
  destruct c1 as [? ? ? ? ? ? ? ? st1 ? ? ? ? ? ? ? ? ? ? ? ?].
  injection Hsess as ? ? ? ? ? ? ? ? ? ? ? ?.
  cbn [mediaRecorder audioChunks analyser mediaStream silenceTimeout voiceDetected
       recordingStartTime vadIntervalId socket mode _status set_status] in *.
  subst. rewrite Hnone in *.
  unfold capture_round.
  erewrite seq_run; [|exact Hrun1|].
  2:{ erewrite seq_run; [reflexivity| |].
      { rewrite vadInterval_tick_recording by done.
        erewrite detect_loud_run; [reflexivity|done|].
        by rewrite (getVadThresholds_ext c). }
      cbn [voiceDetected silenceTimeout app].
      erewrite seq_run; [reflexivity| |].
      { rewrite vadInterval_tick_recording by done.
        erewrite detect_quiet_run; [reflexivity|done| |done|done].
        by rewrite (getVadThresholds_ext c). }
      erewrite seq_run; [reflexivity| |].
      { rewrite silenceTimeout_expired_run.
        cbn [recordingStartTime set_silenceTimeout set_recordingStartTime set_voiceDetected].
        apply Z.leb_le in Hdur. rewrite Hdur. rewrite stopListening_run. reflexivity. }
      cbn [after trace].
      erewrite seq_run; [reflexivity|apply ondataavailable_run; lia|].
      erewrite (handleRecordingStop_valid_run _ _ s); [reflexivity|done| | |done].
      - unfold blob_size, new_Blob in *. cbn. rewrite app_nil_r. lia.
      - cbn. lia. }
  unfold pending_schedules, held_audio, is_recording, isConnected, subscribers.
  fields. rewrite decide_False by done.
  destruct (TrackStop_no_events (getTracks stream)) as [Hevents Hsent].
  split_and!; try done.
  - destruct Hres as [-> | ->]; cbn [app];
      rewrite !sent_cons, sent_app, Hsent, !sent_cons; cbn; by rewrite app_nil_r.
  - destruct Hres as [-> | ->]; cbn [app];
      by rewrite !status_events_cons, status_events_app, Hevents, !status_events_cons.
Qed.

Lemma utterance_is_sent_once_witness :
  let r := capture_round sample_browser loud quiet 1000 1100 1800 1900 4%positive
             utterance idle_client in
  _status (after r) = THINKING
  ∧ sent (trace r)
    = [audio_input (blob_bytes utterance)
         (or_else (Some (getSupportedMimeType (isTypeSupported sample_browser)))
            "audio/webm")
         (mode idle_client)]
  ∧ status_events (trace r) = [LISTENING; THINKING]
  ∧ vadIntervalId (after r) = None
  ∧ silenceTimeout (after r) = None
  ∧ mediaStream (after r) = None
  ∧ is_recording (after r) = false
  ∧ isConnected (after r) = true.
Proof.
  apply (utterance_is_sent_once idle_client sample_browser {| getTracks := [0%nat] |}).
  - vm_compute. reflexivity.
  - vm_compute. discriminate.
  - vm_compute. reflexivity.
  - reflexivity.
  - vm_compute. reflexivity.
  - vm_compute. reflexivity.
  - unfold MIN_SPEECH_DURATION. lia.
  - lia.
  - vm_compute. reflexivity.
Defined.

(** X30. A noise blip does not end capture.  On a connected client that is
    not listening and has no timer pending, with the microphone granted: a
    loud tick, a quiet tick and the silence timer firing less than 400 ms
    after the loud tick leave the client LISTENING with the recorder
    running, the stream and the sampling interval held, the voice flag
    cleared and no timer pending; nothing is sent, stopped or released, and
    the next loud tick starts the speech anew at its own time. *)
Theorem noise_blip_keeps_listening
    (c : LogosClient) (browser : Browser) (stream : MediaStream)
    (loudData quietData : list Z) (t0 t1 t2 t3 : Z) (timer : Handle) :
  isConnected c = true → _status c ≠ LISTENING → silenceTimeout c = None →
  getUserMedia browser = Some stream →
  average_gt loudData (voiceThreshold (getVadThresholds c)) = true →
  average_lt quietData (silenceThreshold (getVadThresholds c)) = true →
  t2 - t0 < MIN_SPEECH_DURATION →
  let r := blip_round browser loudData quietData t0 t1 t2 timer c in
  _status (after r) = LISTENING
  ∧ is_recording (after r) = true
  ∧ mediaStream (after r) = Some stream
  ∧ vadIntervalId (after r) = Some (intervalHandle browser)
  ∧ voiceDetected (after r) = false
  ∧ silenceTimeout (after r) = None
  ∧ sent (trace r) = []
  ∧ Forall (λ e, is_cancel e = false ∧ is_release e = false) (trace r)
  ∧ recordingStartTime (after (vadInterval_tick loudData t3 timer (after r))) = t3.
Proof.
  intros Hconn Hst Hnone Hmic Hloud Hquiet Hdur. cbn zeta.
  destruct (startListening_granted_run c browser stream Hconn Hst Hmic)
    as (c1 & resumed & Hrun1 & Hres & Hsess & Hrec & Hchunks & Han & Hstream & Htimer
        & Hvoice & Hstart & Hint & _).
  destruct c1 as [? ? ? ? ? ? ? ? st1 ? ? ? ? ? ? ? ? ? ? ? ?].
  injection Hsess as ? ? ? ? ? ? ? ? ? ? ? ?.
  cbn [mediaRecorder audioChunks analyser mediaStream silenceTimeout voiceDetected
       recordingStartTime vadIntervalId socket mode _status set_status] in *.
  subst. rewrite Hnone in *.
  unfold blip_round.
  erewrite seq_run; [|exact Hrun1|].
  2:{ erewrite seq_run; [reflexivity| |].
      { rewrite vadInterval_tick_recording by done.
        erewrite detect_loud_run; [reflexivity|done|].
        by rewrite (getVadThresholds_ext c). }
      cbn [voiceDetected silenceTimeout app].
      erewrite seq_run; [reflexivity| |].
      { rewrite vadInterval_tick_recording by done.
        erewrite detect_quiet_run; [reflexivity|done| |done|done].
        by rewrite (getVadThresholds_ext c). }
      rewrite silenceTimeout_expired_run.
      cbn [recordingStartTime set_silenceTimeout set_recordingStartTime set_voiceDetected].
      apply Z.leb_gt in Hdur. rewrite Hdur. reflexivity. }
  unfold is_recording. fields.
  split_and!; try done.
  - destruct Hres as [-> | ->]; by cbn.
  - destruct Hres as [-> | ->]; cbn [app]; repeat (constructor; [done|]); constructor.
  - rewrite vadInterval_tick_recording by done.
    erewrite detect_loud_run; [|done|by rewrite (getVadThresholds_ext c)].
    by fields.
Qed.

Lemma noise_blip_keeps_listening_witness :
  let r := blip_round sample_browser loud quiet 1000 1100 1300 4%positive idle_client in
  _status (after r) = LISTENING
  ∧ is_recording (after r) = true
  ∧ mediaStream (after r) = Some {| getTracks := [0%nat] |}
  ∧ vadIntervalId (after r) = Some (intervalHandle sample_browser)
  ∧ voiceDetected (after r) = false
  ∧ silenceTimeout (after r) = None
  ∧ sent (trace r) = []
  ∧ Forall (λ e, is_cancel e = false ∧ is_release e = false) (trace r)
  ∧ recordingStartTime (after (vadInterval_tick loud 2000 4%positive (after r))) = 2000.
Proof.
  apply (noise_blip_keeps_listening idle_client sample_browser {| getTracks := [0%nat] |}).
  - vm_compute. reflexivity.
  - vm_compute. discriminate.
  - vm_compute. reflexivity.
  - reflexivity.
  - vm_compute. reflexivity.
  - vm_compute. reflexivity.
  - unfold MIN_SPEECH_DURATION. lia.
Defined.
